(** * Yonote notifications bot: event tracking and notification gating

    A shallow embedding of the core of [bot.py] and [settings.py]: the
    user registry ([Database]), the mute store ([NotificationSettings]),
    the event classifier and cursor logic ([YonoteBot._process_events],
    [YonoteBot._is_comment_event]), the notification formatter
    ([YonoteBot._format_notification]), the notification cycle
    ([YonoteBot.check_notifications]), the client of the remote API
    ([YonoteAPI]) and the handlers of text messages
    ([YonoteBot.handle_message], [YonoteBot._handle_token_input]).

    Python values that reach the bot from the remote API are decoded
    JSON, so they are modelled by an inductive type of JSON-like values;
    Python exceptions are an explicit error result; the SQLite tables and
    the in-memory mute cache are finite maps; remote calls and chat
    deliveries are recorded in an effect log. *)

From Stdlib Require Import ZArith NArith List String Ascii Lia.
From stdpp Require Import base option gmap list fin_maps.

Set Warnings "-register-all".
Local Open Scope Z_scope.

(** ** Python strings

    A Python [str] is a sequence of Unicode code points: [len], slicing
    and the [in] test all count code points, so the model is a list of
    code points, not of bytes. *)

Abbreviation pystr := (list N).

(** Source literals are written as UTF-8 text and decoded once by [u]. *)
Definition utf8_step (st : N * N * list N) (b : N) : N * N * list N :=
  let '(need, cp, out) := st in
  if (need =? 0)%N then
    if (b <? 128)%N then (0, 0, b :: out)%N
    else if (b <? 224)%N then (1, b - 192, out)%N
    else if (b <? 240)%N then (2, b - 224, out)%N
    else (3, b - 240, out)%N
  else
    let cp' := (cp * 64 + (b - 128))%N in
    if (need =? 1)%N then (0%N, 0%N, cp' :: out) else ((need - 1)%N, cp', out).

Definition u (s : string) : pystr :=
  rev (snd (fold_left utf8_step (map N_of_ascii (list_ascii_of_string s))
                      (0%N, 0%N, []))).

(** The double quote of the [href] attribute, as a one-character string. *)
Definition dquote : pystr := [34%N].

(** [prefix in s] at position 0, and [needle in hay] (Python's substring
    test on [str]; the empty needle is found everywhere). *)
Fixpoint starts_with (p s : pystr) : bool :=
  match p, s with
  | [], _ => true
  | _ :: _, [] => false
  | a :: p', b :: s' => (a =? b)%N && starts_with p' s'
  end.

Fixpoint str_in (needle hay : pystr) : bool :=
  starts_with needle hay ||
  match hay with
  | [] => false
  | _ :: hay' => str_in needle hay'
  end.

(** [s in list_of_str]: membership of a string in a list of strings. *)
Definition str_in_list (s : pystr) (l : list pystr) : bool :=
  existsb (fun x => bool_decide (s = x)) l.

(** The characters [str.strip] removes when called without argument
    (the code points for which [str.isspace] holds). *)
Definition py_isspace (c : N) : bool :=
  ((9 <=? c) && (c <=? 13) || (28 <=? c) && (c <=? 32) ||
   (c =? 133) || (c =? 160) || (c =? 5760) ||
   (8192 <=? c) && (c <=? 8202) || (c =? 8232) || (c =? 8233) ||
   (c =? 8239) || (c =? 8287) || (c =? 12288))%N.

Fixpoint lstrip (s : pystr) : pystr :=
  match s with
  | [] => []
  | c :: s' => if py_isspace c then lstrip s' else s
  end.

Definition rstrip (s : pystr) : pystr := rev (lstrip (rev s)).

Definition strip (s : pystr) : pystr := rstrip (lstrip s).

(** [s[:n]] on a string or a list. *)
Definition slice_to {A} (n : nat) (s : list A) : list A := firstn n s.

(** Decimal text of an integer, as [str(int)] and SQLite's conversion of
    an INTEGER to TEXT print it. *)
Fixpoint uint_text (d : Decimal.uint) : pystr :=
  match d with
  | Decimal.Nil => []
  | Decimal.D0 d => 48%N :: uint_text d
  | Decimal.D1 d => 49%N :: uint_text d
  | Decimal.D2 d => 50%N :: uint_text d
  | Decimal.D3 d => 51%N :: uint_text d
  | Decimal.D4 d => 52%N :: uint_text d
  | Decimal.D5 d => 53%N :: uint_text d
  | Decimal.D6 d => 54%N :: uint_text d
  | Decimal.D7 d => 55%N :: uint_text d
  | Decimal.D8 d => 56%N :: uint_text d
  | Decimal.D9 d => 57%N :: uint_text d
  end.

Definition int_text (z : Z) : pystr :=
  match Z.to_int z with
  | Decimal.Pos d => uint_text d
  | Decimal.Neg d => 45%N :: uint_text d
  end.

(** A lower-casing function for the Basic Latin and Cyrillic blocks
    (the alphabets of the two keywords the classifier looks for).  The
    development below is stated for an arbitrary [lower]; this one
    instantiates it on concrete inputs. *)
Definition lower_char (c : N) : N :=
  if ((65 <=? c) && (c <=? 90))%N then (c + 32)%N
  else if ((1040 <=? c) && (c <=? 1071))%N then (c + 32)%N
  else if ((1024 <=? c) && (c <=? 1039))%N then (c + 80)%N
  else c.

Definition str_lower (s : pystr) : pystr := map lower_char s.

(** ** Python values and exceptions *)

(** Decoded JSON: [None], booleans, integers, strings, lists and
    dictionaries with string keys.  Numbers are the integers: a JSON
    number with a fraction or an exponent (a Python [float]) is outside
    the model.  Such a value would take the branches of an integer
    everywhere (it is neither a [str], a [dict] nor a [list], and it is
    falsy exactly at zero) except where its text is produced, by
    [py_format] and [sqlite_text] below, which print a float with its
    fraction. *)
Inductive pyval : Type :=
| PNone
| PBool (b : bool)
| PInt (z : Z)
| PStr (s : pystr)
| PList (l : list pyval)
| PDict (d : gmap pystr pyval).

Abbreviation dict := (gmap pystr pyval).

(** The exceptions the modelled code can raise. *)
Inductive exn : Type :=
| AttributeError
| TypeError
| KeyError
| OverflowError
| UnicodeEncodeError
| ProgrammingError.

Inductive result (A : Type) : Type :=
| Ok (a : A)
| Raise (e : exn).
Arguments Ok {A} a.
Arguments Raise {A} e.

#[global] Instance result_ret : MRet result := fun A a => Ok a.

#[global] Instance result_bind : MBind result := fun A B k r =>
  match r with
  | Ok a => k a
  | Raise e => Raise e
  end.

(** Truth value testing ([bool(v)], [if v], [v and ...]). *)
Definition truthy (v : pyval) : bool :=
  match v with
  | PNone => false
  | PBool b => b
  | PInt z => negb (z =? 0)
  | PStr s => negb (bool_decide (s = []))
  | PList l => negb (bool_decide (l = []))
  | PDict d => negb (bool_decide (d = ∅))
  end.

(** [v.get(key)] and [v.get(key, default)]: only a [dict] has [get]. *)
Definition py_get (v : pyval) (key : pystr) (dflt : pyval) : result pyval :=
  match v with
  | PDict d => Ok (default dflt (d !! key))
  | _ => Raise AttributeError
  end.

(** [v[key]] with a string key. *)
Definition py_getitem (v : pyval) (key : pystr) : result pyval :=
  match v with
  | PDict d => match d !! key with Some x => Ok x | None => Raise KeyError end
  | _ => Raise TypeError
  end.

(** [v == s] for a string [s]: only an equal string is equal to it. *)
Definition py_eq_str (v : pyval) (s : pystr) : bool :=
  match v with
  | PStr t => bool_decide (t = s)
  | _ => false
  end.

(** [for x in v]: the items a [for] loop visits.  A dictionary yields its
    keys; the code never depends on their order. *)
Definition py_iter (v : pyval) : result (list pyval) :=
  match v with
  | PList l => Ok l
  | PStr s => Ok (map (fun c => PStr [c]) s)
  | PDict d => Ok (map (fun kv => PStr (fst kv)) (map_to_list d))
  | _ => Raise TypeError
  end.

(** [v.lower()]: only a [str] has [lower]; the case mapping itself is a
    parameter of the development. *)
Definition py_lower (lower : pystr -> pystr) (v : pyval) : result pystr :=
  match v with
  | PStr s => Ok (lower s)
  | _ => Raise AttributeError
  end.

(** [v[:n]]: strings and lists can be sliced; [None], numbers and
    booleans are not subscriptable and a dictionary rejects a slice as
    key, so they raise. *)
Definition py_slice_to (n : nat) (v : pyval) : result pyval :=
  match v with
  | PStr s => Ok (PStr (slice_to n s))
  | PList l => Ok (PList (slice_to n l))
  | _ => Raise TypeError
  end.

(** [len(v)]. *)
Definition py_len (v : pyval) : result nat :=
  match v with
  | PStr s => Ok (length s)
  | PList l => Ok (length l)
  | PDict d => Ok (size d)
  | _ => Raise TypeError
  end.

(** [v += s] for a string literal [s]: concatenation on a string; a list
    is extended with the characters of [s]. *)
Definition py_iadd_str (v : pyval) (s : pystr) : result pyval :=
  match v with
  | PStr t => Ok (PStr (t ++ s))
  | PList l => Ok (PList (l ++ map (fun c => PStr [c]) s))
  | _ => Raise TypeError
  end.

(** [f"{v}"], that is [str(v)].  The text of a list or dictionary is
    their [repr], a parameter of the development. *)
Definition py_format (repr : pyval -> pystr) (v : pyval) : pystr :=
  match v with
  | PNone => u "None"
  | PBool true => u "True"
  | PBool false => u "False"
  | PInt z => int_text z
  | PStr s => s
  | PList _ | PDict _ => repr v
  end.

(** ** The SQLite store

    Two tables of one database file: [users] ([Database.init_db]) and
    [notification_settings] ([NotificationSettings.init_settings_table]),
    both keyed by the integer [user_id].  Timestamps are microseconds on
    the local clock; [datetime.isoformat] and [datetime.fromisoformat]
    are inverse to each other, so the TEXT column holds the timestamp. *)

Record user_row : Type := mk_user_row {
  yonote_token : option pystr;          (* TEXT *)
  notifications_enabled : bool;         (* BOOLEAN DEFAULT 1 *)
  last_event_id : option pystr;         (* TEXT, NULL when absent *)
  created_at : Z                        (* TIMESTAMP DEFAULT CURRENT_TIMESTAMP *)
}.

(** A Python [str] can hold lone surrogates (the JSON decoder keeps an
    escaped one such as [\ud800]); UTF-8 has no encoding for them. *)
Definition is_surrogate (c : N) : bool := ((55296 <=? c) && (c <=? 57343))%N.

Definition utf8_encodable (s : pystr) : bool :=
  forallb (fun c => negb (is_surrogate c)) s.

(** A value bound to the [last_event_id] parameter and read back from the
    TEXT column: NULL for [None]; the string itself, which must be
    encodable in UTF-8 ([UnicodeEncodeError] otherwise); the decimal text
    of a 64-bit integer (a boolean is the integer 0 or 1); a list or a
    dictionary cannot be bound ([sqlite3.ProgrammingError], which was
    [sqlite3.InterfaceError] before Python 3.11). *)
Definition sqlite_text (v : pyval) : result (option pystr) :=
  match v with
  | PNone => Ok None
  | PStr s => if utf8_encodable s then Ok (Some s) else Raise UnicodeEncodeError
  | PInt z =>
      if (- 2 ^ 63 <=? z) && (z <? 2 ^ 63) then Ok (Some (int_text z))
      else Raise OverflowError
  | PBool b => Ok (Some (int_text (if b then 1 else 0)))
  | PList _ | PDict _ => Raise ProgrammingError
  end.

(** *** [class Database] *)

(** [INSERT OR REPLACE INTO users (user_id, yonote_token) VALUES (?, ?)]:
    a row with the same key is deleted first, and the columns that are
    not listed take their defaults. *)
Definition save_user_token (user_id : Z) (token : pystr) (now : Z)
    (users : gmap Z user_row) : gmap Z user_row :=
  <[user_id := {| yonote_token := Some token;
                  notifications_enabled := true;
                  last_event_id := None;
                  created_at := now |}]> users.

Definition get_user_token (user_id : Z) (users : gmap Z user_row)
    : option pystr :=
  match users !! user_id with
  | Some row => yonote_token row
  | None => None
  end.

(** The dictionaries [get_all_users] builds from the selected columns. *)
Record user : Type := mk_user {
  user_id : Z;
  user_yonote_token : option pystr;
  user_notifications_enabled : bool;
  user_last_event_id : option pystr
}.

Definition get_all_users (users : gmap Z user_row) : list user :=
  map (fun kv => {| user_id := fst kv;
                    user_yonote_token := yonote_token (snd kv);
                    user_notifications_enabled := notifications_enabled (snd kv);
                    user_last_event_id := last_event_id (snd kv) |})
      (map_to_list users).

(** [UPDATE users SET notifications_enabled = ? WHERE user_id = ?]. *)
Definition update_notifications_enabled (uid : Z) (enabled : bool)
    (users : gmap Z user_row) : gmap Z user_row :=
  alter (fun row => {| yonote_token := yonote_token row;
                       notifications_enabled := enabled;
                       last_event_id := last_event_id row;
                       created_at := created_at row |}) uid users.

(** [UPDATE users SET last_event_id = ? WHERE user_id = ?]. *)
Definition update_last_event_id (uid : Z) (event_id : option pystr)
    (users : gmap Z user_row) : gmap Z user_row :=
  alter (fun row => {| yonote_token := yonote_token row;
                       notifications_enabled := notifications_enabled row;
                       last_event_id := event_id;
                       created_at := created_at row |}) uid users.

(** [DELETE FROM users WHERE user_id = ?]. *)
Definition delete_user (uid : Z) (users : gmap Z user_row)
    : gmap Z user_row :=
  delete uid users.

(** *** [class NotificationSettings]

    The durable table and the [_disabled_until] dictionary that caches
    it. *)
Record mute_store : Type := mk_mute_store {
  notification_settings : gmap Z Z;     (* user_id -> disabled_until *)
  _disabled_until : gmap Z Z
}.

(** [timedelta(hours=1)] in microseconds. *)
Definition hour : Z := 3600000000.

(** [now] is the reading of [datetime.now()] inside the call. *)
Definition disable_notifications (uid : Z) (hours : Z) (now : Z)
    (ms : mute_store) : mute_store :=
  let disabled_until := now + hours * hour in
  {| notification_settings := <[uid := disabled_until]> (notification_settings ms);
     _disabled_until := <[uid := disabled_until]> (_disabled_until ms) |}.

Definition enable_notifications (uid : Z) (ms : mute_store) : mute_store :=
  {| notification_settings := delete uid (notification_settings ms);
     _disabled_until := delete uid (_disabled_until ms) |}.

Definition are_notifications_enabled (uid : Z) (now : Z) (ms : mute_store)
    : bool * mute_store :=
  match _disabled_until ms !! uid with
  | Some until =>
      if now <? until then (false, ms)
      else (true, enable_notifications uid ms)
  | None =>
      match notification_settings ms !! uid with
      | Some disabled_until =>
          if now <? disabled_until then
            (false, {| notification_settings := notification_settings ms;
                       _disabled_until :=
                         <[uid := disabled_until]> (_disabled_until ms) |})
          else (true, enable_notifications uid ms)
      | None => (true, ms)
      end
  end.

Definition get_disabled_until (uid : Z) (ms : mute_store) : option Z :=
  match _disabled_until ms !! uid with
  | Some until => Some until
  | None => notification_settings ms !! uid
  end.

(** ** The remote workspace API and the chat channel

    What the bot does to the outside world is kept as a log of effects,
    oldest first. *)
Inductive effect : Type :=
| SessionOpen (api_token : option pystr)
| Request (api_token : option pystr) (endpoint : pystr) (data : pyval)
| SessionClose (api_token : option pystr)
| SetLastEventId (uid : Z) (event_id : option pystr)
| SendMessage (chat_id : Z) (text : pystr).

(** The environment of one notification cycle: the answer of the remote
    API to a request ([PNone] for the failure sentinel of
    [_make_request]), the text of [datetime.now(MOSCOW_TZ).strftime(..)]
    and the reading of [datetime.now()] when the mute of a user is
    checked. *)
Record world : Type := mk_world {
  respond : option pystr -> pystr -> pyval -> pyval;
  strftime_now : pystr;
  clock : Z -> Z
}.

(** *** [class YonoteAPI] *)
Record YonoteAPI : Type := mk_YonoteAPI {
  api_token : option pystr;
  session : bool                        (* [self.session] is set *)
}.

Definition new_YonoteAPI (token : option pystr) : YonoteAPI :=
  {| api_token := token; session := false |}.

Definition _get_session (api : YonoteAPI) : YonoteAPI * list effect :=
  if session api then (api, [])
  else ({| api_token := api_token api; session := true |},
        [SessionOpen (api_token api)]).

Definition _make_request (w : world) (api : YonoteAPI) (endpoint : pystr)
    (data : pyval) : YonoteAPI * list effect * pyval :=
  let '(api', opened) := _get_session api in
  (api', opened ++ [Request (api_token api) endpoint data],
   respond w (api_token api) endpoint data).

Definition get_events (w : world) (api : YonoteAPI) (limit offset : Z)
    : YonoteAPI * list effect * pyval :=
  _make_request w api (u "events.list")
    (PDict (<[u "limit" := PInt limit]> (<[u "offset" := PInt offset]> ∅))).

Definition get_document_info (w : world) (api : YonoteAPI)
    (document_id : pyval) : YonoteAPI * list effect * pyval :=
  _make_request w api (u "documents.info")
    (PDict (<[u "id" := document_id]> ∅)).

Definition close (api : YonoteAPI) : list effect :=
  if session api then [SessionClose (api_token api)] else [].

(** ** [class YonoteBot] *)

Section YonoteBot.

Variable lower : pystr -> pystr.
Variable repr : pyval -> pystr.
Variable w : world.

(** The scan at the head of [_process_events]: events are accumulated
    until one has the stored id; the test [last_event_id and ...] skips
    the comparison when the cursor is [None] or the empty string. *)
Fixpoint scan_new_events (last_event_id : option pystr)
    (events : list pyval) : result (list pyval) :=
  match events with
  | [] => Ok []
  | event :: rest =>
      stop ← match last_event_id with
             | Some c =>
                 if truthy (PStr c) then
                   i ← py_get event (u "id") PNone; Ok (py_eq_str i c)
                 else Ok false
             | None => Ok false
             end;
      if (stop : bool) then Ok []
      else new_events ← scan_new_events last_event_id rest;
           Ok (event :: new_events)
  end.

Definition comment_events : list pystr :=
  [u "comments.create"; u "comments.update"; u "comments.delete";
   u "comments.resolve"; u "comment.create"; u "comment.update";
   u "comment.delete"; u "comment.resolve"].

Definition comment_keywords : list pystr :=
  [u "comment"; u "комментарий"].

Definition _is_comment_event (event : pyval) : result bool :=
  name ← py_get event (u "name") (PStr []);
  event_type ← py_lower lower name;
  Ok (str_in_list event_type comment_events
      || existsb (fun keyword => str_in keyword event_type) comment_keywords).

Definition _is_user_author_or_collaborator (event document : pyval) : bool :=
  true.

(** The verb phrase chosen from the lowered event name. *)
Definition action_of (event_name : pystr) : pystr :=
  if str_in (u "create") event_name then u "создал комментарий"
  else if str_in (u "update") event_name then u "изменил комментарий"
  else if str_in (u "delete") event_name then u "удалил комментарий"
  else if str_in (u "resolve") event_name then u "изменил статус комментария"
  else u "выполнил действие с комментарием".

(** The message before the comment text is added. *)
Definition message_head (document_title actor_name action event_time
    document_url : pystr) : pystr :=
  [10%N] ++ u "📄 <b>" ++ document_title ++ u "</b>" ++ [10%N; 10%N]
  ++ u "👤 " ++ actor_name ++ u " " ++ action ++ [10%N; 10%N]
  ++ u "🕐 " ++ event_time ++ u " (МСК)" ++ [10%N; 10%N]
  ++ u "🔗 <a href=" ++ dquote ++ document_url ++ dquote
  ++ u ">Перейти к странице</a>" ++ [10%N].

(** The comment text: [comment_data['data'][:200]], with ["..."] added
    when the data is longer than 200. *)
Definition comment_text_of (data : pyval) : result pyval :=
  comment_text ← py_slice_to 200 data;
  n ← py_len data;
  if (200 <? n)%nat then py_iadd_str comment_text (u "...")
  else Ok comment_text.

(** [_format_notification] up to the assignment of [message].  The
    source lowers [event_name] again in each [elif]; the calls are pure,
    so one of them stands for all. *)
Definition notification_head (event document : pyval) : result pystr :=
  let event_time := strftime_now w in
  document_title ← py_get document (u "title") (PStr (u "Без названия"));
  document_id ← py_get document (u "id") (PStr []);
  let document_url := u "https://app.yonote.ru/doc/" ++ py_format repr document_id in
  actor ← py_get event (u "actor") (PDict ∅);
  actor_name ← py_get actor (u "name") (PStr (u "Неизвестный пользователь"));
  event_name ← py_get event (u "name") (PStr []);
  lowered ← py_lower lower event_name;
  let action := action_of lowered in
  Ok (message_head (py_format repr document_title) (py_format repr actor_name)
                   action event_time document_url).

Definition _format_notification (event document : pyval) : result pystr :=
  message ← notification_head event document;
  comment_data ← py_get event (u "data") (PDict ∅);
  message ← match comment_data with
            | PDict d =>
                let data := default PNone (d !! u "data") in
                if truthy data then
                  comment_text ← comment_text_of data;
                  Ok (message ++ [10%N] ++ u "💬 <i>"
                      ++ py_format repr comment_text ++ u "</i>")
                else Ok message
            | _ => Ok message
            end;
  Ok (strip message).

(** [_send_notification] catches every exception, so it only yields the
    client (whose session it may have opened) and the effects. *)
Definition _send_notification (uid : Z) (event : pyval) (api : YonoteAPI)
    : YonoteAPI * list effect :=
  match py_get event (u "documentId") PNone with
  | Raise _ => (api, [])
  | Ok document_id =>
      if negb (truthy document_id) then (api, [])
      else
        let '(api', requested, doc_info) := get_document_info w api document_id in
        match (if negb (truthy doc_info) then Ok true
               else ok ← py_get doc_info (u "ok") PNone; Ok (negb (truthy ok))) with
        | Raise _ | Ok true => (api', requested)
        | Ok false =>
            match (document ← py_get doc_info (u "data") (PDict ∅);
                   if negb (_is_user_author_or_collaborator event document)
                   then Ok None
                   else message ← _format_notification event document;
                        Ok (Some message)) with
            | Ok (Some message) => (api', requested ++ [SendMessage uid message])
            | Ok None | Raise _ => (api', requested)
            end
        end
  end.

(** The list comprehension [[e for e in new_events if ...]]. *)
Fixpoint filter_comment_events (new_events : list pyval)
    : result (list pyval) :=
  match new_events with
  | [] => Ok []
  | e :: rest =>
      keep ← _is_comment_event e;
      kept ← filter_comment_events rest;
      Ok (if (keep : bool) then e :: kept else kept)
  end.

(** The loop [for event in comment_events: await _send_notification(..)]. *)
Fixpoint send_notifications (uid : Z) (events : list pyval) (api : YonoteAPI)
    : YonoteAPI * list effect :=
  match events with
  | [] => (api, [])
  | event :: rest =>
      let '(api', sent) := _send_notification uid event api in
      let '(api'', sent') := send_notifications uid rest api' in
      (api'', sent ++ sent')
  end.

(** The outcome of a call that may have changed the client, the [users]
    table and the outside world before it returned or raised. *)
Record outcome : Type := mk_outcome {
  out_api : YonoteAPI;
  out_users : gmap Z user_row;
  out_effects : list effect;
  out_result : result unit
}.

Definition _process_events (usr : user) (events : pyval) (api : YonoteAPI)
    (users : gmap Z user_row) : outcome :=
  let last_event_id := user_last_event_id usr in
  match (items ← py_iter events; scan_new_events last_event_id items) with
  | Raise e => mk_outcome api users [] (Raise e)
  | Ok [] => mk_outcome api users [] (Ok ())
  | Ok (newest :: older) =>
      match (i ← py_getitem newest (u "id"); sqlite_text i) with
      | Raise e => mk_outcome api users [] (Raise e)
      | Ok event_id =>
          let users' := update_last_event_id (user_id usr) event_id users in
          let written := [SetLastEventId (user_id usr) event_id] in
          match filter_comment_events (newest :: older) with
          | Raise e => mk_outcome api users' written (Raise e)
          | Ok commented =>
              let '(api', sent) := send_notifications (user_id usr) commented api in
              mk_outcome api' users' (written ++ sent) (Ok ())
          end
      end
  end.

(** The state of the bot between two users of a cycle. *)
Record bot_state : Type := mk_bot_state {
  db : gmap Z user_row;
  settings : mute_store;
  trace : list effect
}.

(** The body of the loop of [check_notifications] for one user. *)
Definition check_user (usr : user) (st : bot_state) : bot_state :=
  if negb (user_notifications_enabled usr) then st
  else
    let '(enabled, settings') :=
      are_notifications_enabled (user_id usr) (clock w (user_id usr)) (settings st) in
    if negb enabled then mk_bot_state (db st) settings' (trace st)
    else
      let api := new_YonoteAPI (user_yonote_token usr) in
      let '(api, fetched, events) := get_events w api 20 0 in
      match (if negb (truthy events) then Ok false
             else ok ← py_get events (u "ok") PNone;
                  if negb (truthy ok) then Ok false
                  else data ← py_get events (u "data") PNone;
                       Ok (truthy data)) with
      | Raise _ => mk_bot_state (db st) settings' (trace st ++ fetched)
      | Ok false =>
          mk_bot_state (db st) settings' (trace st ++ fetched ++ close api)
      | Ok true =>
          match py_getitem events (u "data") with
          | Raise _ => mk_bot_state (db st) settings' (trace st ++ fetched)
          | Ok data =>
              let o := _process_events usr data api (db st) in
              match out_result o with
              | Raise _ =>
                  mk_bot_state (out_users o) settings'
                               (trace st ++ fetched ++ out_effects o)
              | Ok _ =>
                  mk_bot_state (out_users o) settings'
                               (trace st ++ fetched ++ out_effects o
                                ++ close (out_api o))
              end
          end
      end.

Definition check_notifications (st : bot_state) : bot_state :=
  fold_left (fun st usr => check_user usr st) (get_all_users (db st)) st.

(** The state change of [change_workspace_callback], the handler that
    disconnects a user: [await self.db.delete_user(user_id)]. *)
Definition change_workspace_callback (uid : Z) (st : bot_state) : bot_state :=
  mk_bot_state (delete_user uid (db st)) (settings st) (trace st).

End YonoteBot.

(** ** The specification's wording of the classifier

    The definitions of this part follow the text of the specification,
    to be compared with the code above. *)

(** [event]'s id equals the cursor [c]. *)
Definition id_matches (c : pystr) (event : dict) : bool :=
  py_eq_str (default PNone (event !! u "id")) c.

(** The prefix of a page strictly before the first element whose id
    equals [c]. *)
Fixpoint prefix_before (c : pystr) (page : list dict) : list dict :=
  match page with
  | [] => []
  | event :: rest =>
      if id_matches c event then [] else event :: prefix_before c rest
  end.

(** The new-events set of the specification: the whole page for an
    absent cursor, the prefix before the cursor otherwise. *)
Definition spec_new_events (c : option pystr) (page : list dict) : list dict :=
  match c with
  | None => page
  | Some c => prefix_before c page
  end.

(** The comment classifier reduced to its substring test. *)
Definition substring_classifier (lower : pystr -> pystr) (event : pyval)
    : result bool :=
  name ← py_get event (u "name") (PStr []);
  event_type ← py_lower lower name;
  Ok (str_in (u "comment") event_type || str_in (u "комментарий") event_type).

(** ** Inputs used to run the model *)

Definition repr_stub : pyval -> pystr := fun _ => u "{...}".

Definition quiet_world : world :=
  mk_world (fun _ _ _ => PNone) (u "04.11.2026 12:00") (fun _ => 0).

Definition mk_event (fields : list (pystr * pyval)) : dict := list_to_map fields.

(** The fields of an event the formatter reads have the expected types
    when they are present: [actor] is a dictionary, [name] a string, and
    the comment body under [data.data] a string, a list or a falsy
    value. *)
Definition typed_fields (event : dict) : Prop :=
  match event !! u "actor" with
  | None | Some (PDict _) => True
  | Some _ => False
  end
  ∧ match event !! u "name" with
    | None | Some (PStr _) => True
    | Some _ => False
    end
  ∧ match event !! u "data" with
    | Some (PDict d) =>
        match d !! u "data" with
        | None | Some (PStr _) | Some (PList _) => True
        | Some v => truthy v = false
        end
    | _ => True
    end.

(** A remote API that answers [events.list] with the page [page] and
    every document request with a document titled "Page". *)
Definition world_with_page (page : list pyval) : world :=
  mk_world
    (fun _ endpoint data =>
       if bool_decide (endpoint = u "events.list") then
         PDict (mk_event [(u "ok", PBool true); (u "data", PList page)])
       else
         PDict (mk_event
                  [(u "ok", PBool true);
                   (u "data",
                    PDict (mk_event [(u "id", PStr (u "d1"));
                                     (u "title", PStr (u "Page"))]))]))
    (u "04.11.2026 12:00") (fun _ => 0).

Definition one_user : bot_state :=
  mk_bot_state {[7 := mk_user_row (Some (u "token")) true None 0]}
               (mk_mute_store ∅ ∅) [].

Definition comment_event (fields : list (pystr * pyval)) : pyval :=
  PDict (mk_event ((u "name", PStr (u "comments.create"))
                   :: (u "documentId", PStr (u "d1")) :: fields)).

Definition events_request : effect :=
  Request (Some (u "token")) (u "events.list")
          (PDict (<[u "limit" := PInt 20]> (<[u "offset" := PInt 0]> ∅))).

(** The end-to-end scenario of the specification: cursor E3 and the page
    E5, E4, E3, E2, of which only E4 is a comment event. *)
Definition spec_page : list dict :=
  [mk_event [(u "id", PStr (u "E5")); (u "name", PStr (u "documents.update"))];
   mk_event [(u "id", PStr (u "E4")); (u "name", PStr (u "comments.create"));
             (u "documentId", PStr (u "d1"))];
   mk_event [(u "id", PStr (u "E3"))];
   mk_event [(u "id", PStr (u "E2"))]].

Definition spec_user : user := mk_user 7 (Some (u "token")) true (Some (u "E3")).

Definition spec_users : gmap Z user_row :=
  {[7 := mk_user_row (Some (u "token")) true (Some (u "E3")) 0]}.

(** An event with a comment body of 201 characters. *)
Definition long_body : pystr := repeat 97%N 201.

Definition long_comment : dict := mk_event [(u "data", PStr long_body)].

Definition long_event : dict :=
  mk_event [(u "id", PStr (u "e1")); (u "name", PStr (u "comments.create"));
            (u "data", PDict long_comment)].

(** ** The remaining methods of [YonoteAPI]

    [_make_request] sends [data or {}]: a call without data sends the
    empty dictionary. *)
Definition get_auth_info (w : world) (api : YonoteAPI)
    : YonoteAPI * list effect * pyval :=
  _make_request w api (u "auth.info") (PDict ∅).

Definition get_comments_list (w : world) (api : YonoteAPI)
    (document_id : pyval) : YonoteAPI * list effect * pyval :=
  _make_request w api (u "comments.list")
    (PDict (<[u "entityId" := document_id]> ∅)).

(** A call of one of the four request methods, and a sequence of such
    calls on one client. *)
Inductive api_call : Type :=
| CallAuthInfo
| CallEvents (limit offset : Z)
| CallDocumentInfo (document_id : pyval)
| CallCommentsList (document_id : pyval).

Definition perform (w : world) (api : YonoteAPI) (call : api_call)
    : YonoteAPI * list effect * pyval :=
  match call with
  | CallAuthInfo => get_auth_info w api
  | CallEvents limit offset => get_events w api limit offset
  | CallDocumentInfo document_id => get_document_info w api document_id
  | CallCommentsList document_id => get_comments_list w api document_id
  end.

Fixpoint perform_all (w : world) (api : YonoteAPI) (calls : list api_call)
    : YonoteAPI * list effect :=
  match calls with
  | [] => (api, [])
  | call :: rest =>
      let '(api', done, _) := perform w api call in
      let '(api'', done') := perform_all w api' rest in
      (api'', done ++ done')
  end.

(** The request a call puts on the wire. *)
Definition request_of (token : option pystr) (call : api_call) : effect :=
  match call with
  | CallAuthInfo => Request token (u "auth.info") (PDict ∅)
  | CallEvents limit offset =>
      Request token (u "events.list")
        (PDict (<[u "limit" := PInt limit]> (<[u "offset" := PInt offset]> ∅)))
  | CallDocumentInfo document_id =>
      Request token (u "documents.info") (PDict (<[u "id" := document_id]> ∅))
  | CallCommentsList document_id =>
      Request token (u "comments.list")
        (PDict (<[u "entityId" := document_id]> ∅))
  end.

(** ** Notions used to state properties of the cycle *)

(** An effect made on behalf of the user [uid] with the token [token]. *)
Definition owned_by (uid : Z) (token : option pystr) (e : effect) : Prop :=
  match e with
  | SessionOpen t | SessionClose t | Request t _ _ => t = token
  | SetLastEventId v _ | SendMessage v _ => v = uid
  end.

Definition is_send (e : effect) : bool :=
  match e with SendMessage _ _ => true | _ => false end.

Definition is_close (e : effect) : bool :=
  match e with SessionClose _ => true | _ => false end.

(** The request for the newest page that the cycle makes for a user. *)
Definition poll_request (token : option pystr) : effect :=
  Request token (u "events.list")
    (PDict (<[u "limit" := PInt 20]> (<[u "offset" := PInt 0]> ∅))).

(** The rows of [users'] are those of [users], up to their cursors. *)
Definition rows_kept (users users' : gmap Z user_row) : Prop :=
  ∀ v, match users !! v, users' !! v with
       | Some row, Some row' =>
           yonote_token row' = yonote_token row
           ∧ notifications_enabled row' = notifications_enabled row
           ∧ created_at row' = created_at row
       | None, None => True
       | _, _ => False
       end.

(** What one call, or one loop of calls, of [_send_notification] leaves
    behind: the same token, an open session stays open, every effect is
    made for the user with the token of the client, none closes a
    session, and at most one message is sent per event. *)
Definition tidy (uid : Z) (api api' : YonoteAPI) (done : list effect)
    (bound : nat) : Prop :=
  api_token api' = api_token api
  ∧ (session api = true → session api' = true)
  ∧ Forall (owned_by uid (api_token api)) done
  ∧ Forall (fun e => is_close e = false) done
  ∧ (length (filter is_send done) ≤ bound)%nat
  ∧ Forall (fun e => match e with SetLastEventId _ _ => False | _ => True end) done.

(** The loop of [check_notifications] over a list of users. *)
Definition run (lower : pystr -> pystr) (repr : pyval -> pystr) (w : world)
    (l : list user) (st : bot_state) : bot_state :=
  fold_left (fun st usr => check_user lower repr w usr st) l st.

(** A muted user: user 7 connected and muted for one hour at time 0. *)
Definition muted_user : bot_state :=
  mk_bot_state {[7 := mk_user_row (Some (u "token")) true None 0]}
               (disable_notifications 7 1 0 (mk_mute_store ∅ ∅)) [].

(** The row and the dictionary of user 7 in [one_user]. *)
Definition row7 : user_row := mk_user_row (Some (u "token")) true None 0.

Definition user7 : user := mk_user 7 (Some (u "token")) true None.

(** The answer of [world_with_page] to [events.list]. *)
Definition page_answer (page : list pyval) : dict :=
  mk_event [(u "ok", PBool true); (u "data", PList page)].

(** [message_head] without its first and its last line break. *)
Definition message_core (document_title actor_name action event_time
    document_url : pystr) : pystr :=
  u "📄 <b>" ++ document_title ++ u "</b>" ++ [10%N; 10%N]
  ++ u "👤 " ++ actor_name ++ u " " ++ action ++ [10%N; 10%N]
  ++ u "🕐 " ++ event_time ++ u " (МСК)" ++ [10%N; 10%N]
  ++ u "🔗 <a href=" ++ dquote ++ document_url ++ dquote
  ++ u ">Перейти к странице</a>".

(** ** The handlers of text messages

    [handle_message] and [_handle_token_input] read four fields of the
    update and the flag [waiting_for_token] of [context.user_data]; they
    call the chat platform, whose calls can fail, and the remote API. *)
Record update : Type := mk_update {
  message_text : pystr;                 (* update.message.text *)
  effective_user : Z;                   (* update.effective_user.id *)
  effective_chat : Z;                   (* update.effective_chat.id *)
  message_id : Z                        (* update.message.message_id *)
}.

Inductive chat_effect : Type :=
| DeleteMessage (chat_id msg_id : Z)
| SendText (chat_id : Z) (text : pystr) (main_menu : bool)
| Remote (e : effect).

(** The chat platform: whether the deletion of a message and the sending
    of a text succeed. *)
Record telegram : Type := mk_telegram {
  can_delete : Z -> Z -> bool;
  can_send : Z -> pystr -> bool
}.

Inductive handler_error : Type :=
| PythonError (e : exn)
| TelegramError.

Inductive handled : Type :=
| Done
| Failed (e : handler_error).

Record chat_state : Type := mk_chat_state {
  registry : gmap Z user_row;           (* the [users] table *)
  waiting_for_token : option bool;      (* absent, True or False *)
  chat_log : list chat_effect
}.

Definition connected_text : pystr :=
  u "✅ Подключение выполнено успешно!" ++ [10%N; 10%N]
  ++ u "Теперь вы будете получать уведомления о комментариях из Yonote.".

Definition invalid_token_text : pystr :=
  u "❌ Неверный токен. Пожалуйста, проверьте токен и попробуйте еще раз.".

Definition use_menu_text : pystr :=
  u "Используйте меню для управления ботом.".

(** The attempts of the loop [for i in range(20)]; their failures are
    swallowed. *)
Definition delete_recent (chat msg_id : Z) : list chat_effect :=
  map (fun i => DeleteMessage chat (msg_id - i)) (seqZ 0 20).

(** [now] is the value of CURRENT_TIMESTAMP when the row is written. *)
Definition _handle_token_input (tg : telegram) (w : world) (now : Z)
    (upd : update) (st : chat_state) : chat_state * handled :=
  let token := strip (message_text upd) in
  let uid := effective_user upd in
  let chat := effective_chat upd in
  let deleted := chat_log st ++ [DeleteMessage chat (message_id upd)] in
  if negb (can_delete tg chat (message_id upd)) then
    (mk_chat_state (registry st) (waiting_for_token st) deleted,
     Failed TelegramError)
  else
    let '(api, requested, auth_info) :=
      get_auth_info w (new_YonoteAPI (Some token)) in
    let asked := deleted ++ map Remote requested in
    match (if truthy auth_info then
             ok ← py_get auth_info (u "ok") PNone; Ok (truthy ok)
           else Ok false) with
    | Raise e =>
        (mk_chat_state (registry st) (waiting_for_token st) asked,
         Failed (PythonError e))
    | Ok true =>
        let users' := save_user_token uid token now (registry st) in
        let told := asked ++ delete_recent chat (message_id upd)
                    ++ [SendText chat connected_text true] in
        if negb (can_send tg chat connected_text) then
          (mk_chat_state users' (Some false) told, Failed TelegramError)
        else
          (mk_chat_state users' (Some false) (told ++ map Remote (close api)),
           Done)
    | Ok false =>
        let told := asked ++ [SendText chat invalid_token_text false] in
        if negb (can_send tg chat invalid_token_text) then
          (mk_chat_state (registry st) (waiting_for_token st) told,
           Failed TelegramError)
        else
          (mk_chat_state (registry st) (waiting_for_token st)
                         (told ++ map Remote (close api)),
           Done)
    end.

Definition handle_message (tg : telegram) (w : world) (now : Z)
    (upd : update) (st : chat_state) : chat_state * handled :=
  match waiting_for_token st with
  | Some true => _handle_token_input tg w now upd st
  | Some false | None =>
      let told := chat_log st
                  ++ [SendText (effective_chat upd) use_menu_text true] in
      (mk_chat_state (registry st) (waiting_for_token st) told,
       if can_send tg (effective_chat upd) use_menu_text then Done
       else Failed TelegramError)
  end.

(** The token of a message is confirmed: the user was asked for it, the
    platform deleted the message, and the remote API answered
    [auth.info] for the stripped text with a truthy [ok]. *)
Definition token_confirmed (tg : telegram) (w : world) (upd : update)
    (st : chat_state) : Prop :=
  waiting_for_token st = Some true
  ∧ can_delete tg (effective_chat upd) (message_id upd) = true
  ∧ ∃ d ok,
      respond w (Some (strip (message_text upd))) (u "auth.info") (PDict ∅)
      = PDict d
      ∧ d !! u "ok" = Some ok ∧ truthy ok = true.

(** A chat platform on which every call succeeds, a user who has been
    asked for the token, and the message that answers with it. *)
Definition obliging_telegram : telegram :=
  mk_telegram (fun _ _ => true) (fun _ _ => true).

Definition awaiting_token : chat_state := mk_chat_state ∅ (Some true) [].

Definition token_update : update := mk_update (u "  secret ") 7 7 100.

(** ** Notions used to state properties of the stores *)

(** The cache mirrors the durable table: each cached window is the
    stored one. *)
Definition cache_coherent (ms : mute_store) : Prop :=
  ∀ uid until, _disabled_until ms !! uid = Some until →
               notification_settings ms !! uid = Some until.

(** * Properties *)

(** ** The scan of new events *)

Lemma prefix_before_split c page :
  ∃ rest, page = prefix_before c page ++ rest
          ∧ Forall (fun e => id_matches c e = false) (prefix_before c page)
          ∧ match rest with
            | [] => True
            | e :: _ => id_matches c e = true
            end.
Proof.
  induction page as [|e page [rest (Hsplit & Hnone & Hhead)]]; simpl.
  - exists []. repeat split; constructor.
  - destruct (id_matches c e) eqn:He.
    + exists (e :: page). repeat split; [constructor | exact He].
    + exists rest. split; [simpl; congruence|]. split; [constructor; assumption | exact Hhead].
Qed.

Lemma scan_no_cursor page :
  scan_new_events None (map PDict page) = Ok (map PDict page).
Proof.
  induction page as [|e page IH]; simpl; [reflexivity|].
  rewrite IH. reflexivity.
Qed.

Lemma scan_empty_cursor page :
  scan_new_events (Some []) (map PDict page) = Ok (map PDict page).
Proof.
  induction page as [|e page IH]; simpl; [reflexivity|].
  rewrite IH. reflexivity.
Qed.

Lemma scan_cursor a c page :
  scan_new_events (Some (a :: c)) (map PDict page)
  = Ok (map PDict (prefix_before (a :: c) page)).
Proof.
  induction page as [|e page IH]; [reflexivity|].
  cbn [map scan_new_events prefix_before].
  change (truthy (PStr (a :: c))) with true. cbn [py_get].
  unfold id_matches.
  destruct (py_eq_str (default PNone (e !! u "id")) (a :: c)) eqn:Hid;
    cbn; rewrite Hid; [reflexivity|].
  rewrite IH. reflexivity.
Qed.

(** C1 (as amended).  For every stored cursor [c] and every fetched page,
    the scan returns a prefix [new] of the page.  When [c] is a non-empty
    string, no element of [new] has the id [c] and the element right
    after [new], if there is one, has it: [new] is the prefix strictly
    before the first element whose id equals [c], and the whole page when
    no element matches.  When [c] is absent or the empty string, [new] is
    the whole page. *)
Theorem C1_new_events_prefix (c : option pystr) (page : list dict) :
  ∃ new rest,
    scan_new_events c (map PDict page) = Ok (map PDict new)
    ∧ page = new ++ rest
    ∧ match c with
      | Some (a :: s) =>
          Forall (fun e => id_matches (a :: s) e = false) new
          ∧ match rest with
            | [] => True
            | e :: _ => id_matches (a :: s) e = true
            end
      | Some [] | None => rest = []
      end.
Proof.
  destruct c as [[|a s]|].
  - exists page, []. rewrite scan_empty_cursor, app_nil_r. auto.
  - destruct (prefix_before_split (a :: s) page) as (rest & Hsplit & Hnew & Hrest).
    exists (prefix_before (a :: s) page), rest.
    rewrite scan_cursor. auto.
  - exists page, []. rewrite scan_no_cursor, app_nil_r. auto.
Qed.

(** C1, counterexample.  With the empty string as stored cursor and a
    page of one event whose id is the empty string, the claim's new-events
    set (the prefix before the first element whose id equals the cursor)
    is empty, but the scan returns the whole page. *)
Lemma C1_empty_cursor_counterexample :
  let page := [mk_event [(u "id", PStr [])]] in
  spec_new_events (Some []) page = []
  ∧ scan_new_events (Some []) (map PDict page) = Ok (map PDict page)
  ∧ scan_new_events (Some []) (map PDict page)
    ≠ Ok (map PDict (spec_new_events (Some []) page)).
Proof.
  cbv zeta. split; [vm_compute; reflexivity|].
  split; [apply scan_empty_cursor|].
  rewrite scan_empty_cursor. vm_compute. discriminate.
Qed.

(** ** The cursor update of [_process_events] *)

Section ProcessEvents.

Variable lower : pystr -> pystr.
Variable repr : pyval -> pystr.
Variable w : world.

Lemma process_events_none usr api users events items :
  py_iter events = Ok items →
  scan_new_events (user_last_event_id usr) items = Ok [] →
  _process_events lower repr w usr events api users
  = mk_outcome api users [] (Ok ()).
Proof.
  intros Hiter Hscan. unfold _process_events.
  rewrite Hiter. cbn [mbind result_bind]. rewrite Hscan. reflexivity.
Qed.

Lemma process_events_some usr api users events items newest older v stored :
  py_iter events = Ok items →
  scan_new_events (user_last_event_id usr) items = Ok (newest :: older) →
  py_getitem newest (u "id") = Ok v →
  sqlite_text v = Ok stored →
  let o := _process_events lower repr w usr events api users in
  out_users o = update_last_event_id (user_id usr) stored users
  ∧ ∃ later, out_effects o = SetLastEventId (user_id usr) stored :: later.
Proof.
  intros Hiter Hscan Hid Hbind. cbv zeta. unfold _process_events.
  rewrite Hiter. cbn [mbind result_bind]. rewrite Hscan, Hid.
  cbn [mbind result_bind]. rewrite Hbind.
  destruct (filter_comment_events lower (newest :: older)) as [commented|e].
  - destruct (send_notifications lower repr w (user_id usr) commented api)
      as [api' sent].
    split; [reflexivity|]. exists sent. reflexivity.
  - split; [reflexivity|]. exists []. reflexivity.
Qed.

Lemma process_events_unwritten usr api users events items newest older v e :
  py_iter events = Ok items →
  scan_new_events (user_last_event_id usr) items = Ok (newest :: older) →
  py_getitem newest (u "id") = Ok v →
  sqlite_text v = Raise e →
  _process_events lower repr w usr events api users
  = mk_outcome api users [] (Raise e).
Proof.
  intros Hiter Hscan Hid Hbind. unfold _process_events.
  rewrite Hiter. cbn [mbind result_bind]. rewrite Hscan, Hid.
  cbn [mbind result_bind]. rewrite Hbind. reflexivity.
Qed.

Lemma sqlite_text_str i :
  sqlite_text (PStr i)
  = if utf8_encodable i then Ok (Some i) else Raise UnicodeEncodeError.
Proof. reflexivity. Qed.

Lemma update_last_event_id_lookup uid event_id users row :
  users !! uid = Some row →
  ∃ row', update_last_event_id uid event_id users !! uid = Some row'
          ∧ last_event_id row' = event_id
          ∧ yonote_token row' = yonote_token row
          ∧ notifications_enabled row' = notifications_enabled row.
Proof.
  intros Hrow. unfold update_last_event_id.
  rewrite lookup_alter_eq, Hrow. cbn. eexists. split; [reflexivity|]. auto.
Qed.

(** C2 (as amended).  Let a user have a row in [users] and let a page of
    events be processed for that user.  If the new-events list is empty,
    the table (and so the stored cursor) is unchanged and nothing is done
    to the outside world.  If it is not empty and its first element has a
    string id [i] that the database can store, the stored cursor of the
    user becomes [i], whatever the name of that event is, and the write
    is the first effect of the call: every message delivery comes after
    it. *)
Theorem C2_cursor_advance (usr : user) (api : YonoteAPI)
    (users : gmap Z user_row) (row : user_row) (page : list dict) :
  users !! user_id usr = Some row →
  let new_events := scan_new_events (user_last_event_id usr) (map PDict page) in
  let o := _process_events lower repr w usr (PList (map PDict page)) api users in
  (new_events = Ok [] → out_users o = users ∧ out_effects o = [])
  ∧ (∀ newest older i,
       new_events = Ok (PDict newest :: older) →
       newest !! u "id" = Some (PStr i) →
       utf8_encodable i = true →
       (∃ row', out_users o !! user_id usr = Some row'
                ∧ last_event_id row' = Some i)
       ∧ (∃ later, out_effects o = SetLastEventId (user_id usr) (Some i) :: later)
       ∧ (∀ before chat text after,
            out_effects o = before ++ SendMessage chat text :: after →
            In (SetLastEventId (user_id usr) (Some i)) before)).
Proof.
  intros Hrow. cbv zeta. split.
  - intros Hscan.
    rewrite (process_events_none usr api users (PList (map PDict page)) _ eq_refl Hscan).
    auto.
  - intros newest older i Hscan Hid Hutf.
    assert (Hget : py_getitem (PDict newest) (u "id") = Ok (PStr i))
      by (cbn [py_getitem]; rewrite Hid; reflexivity).
    assert (Hbind : sqlite_text (PStr i) = Ok (Some i))
      by (rewrite sqlite_text_str, Hutf; reflexivity).
    destruct (process_events_some usr api users (PList (map PDict page))
                _ _ _ _ _ eq_refl Hscan Hget Hbind) as [Husers [later Hlater]].
    split; [|split].
    + rewrite Husers.
      destruct (update_last_event_id_lookup (user_id usr) (Some i) users row Hrow)
        as (row' & Hrow' & Hcursor & _).
      exists row'. auto.
    + exists later. exact Hlater.
    + intros before chat text after Hsplit. rewrite Hlater in Hsplit.
      destruct before as [|first before]; cbn in Hsplit.
      * discriminate Hsplit.
      * injection Hsplit as <- _. left. reflexivity.
Qed.

(** C8 (as amended).  Let a user have a row in [users], and let a page
    whose newest element carries a non-empty string id [i] have a
    non-empty new-events list.  The scan of the same page against the
    updated cursor, the id [i], returns no event.  That id is the cursor
    the table holds after the page has been processed whenever the
    database can store it; when it cannot, the table is left as it
    was. *)
Theorem C8_rescan_is_empty (usr : user) (api : YonoteAPI)
    (users : gmap Z user_row) (row : user_row)
    (newest : dict) (rest : list dict) (i : pystr) :
  users !! user_id usr = Some row →
  newest !! u "id" = Some (PStr i) →
  i ≠ [] →
  scan_new_events (user_last_event_id usr) (map PDict (newest :: rest)) ≠ Ok [] →
  let o := _process_events lower repr w usr (PList (map PDict (newest :: rest)))
                           api users in
  scan_new_events (Some i) (map PDict (newest :: rest)) = Ok []
  ∧ (utf8_encodable i = true →
     ∃ row', out_users o !! user_id usr = Some row'
             ∧ last_event_id row' = Some i
             ∧ scan_new_events (last_event_id row') (map PDict (newest :: rest))
               = Ok [])
  ∧ (utf8_encodable i = false → out_users o = users).
Proof.
  intros Hrow Hid Hne Hnew. cbv zeta.
  assert (Hscan : ∃ older,
    scan_new_events (user_last_event_id usr) (map PDict (newest :: rest))
    = Ok (PDict newest :: older)).
  { destruct (user_last_event_id usr) as [[|a c]|].
    - rewrite scan_empty_cursor. eexists. reflexivity.
    - rewrite scan_cursor in Hnew |- *. cbn [prefix_before] in Hnew |- *.
      destruct (id_matches (a :: c) newest); [now destruct Hnew|].
      eexists. reflexivity.
    - rewrite scan_no_cursor. eexists. reflexivity. }
  destruct Hscan as [older Hscan].
  assert (Hget : py_getitem (PDict newest) (u "id") = Ok (PStr i))
    by (cbn [py_getitem]; rewrite Hid; reflexivity).
  assert (Hrescan : scan_new_events (Some i) (map PDict (newest :: rest)) = Ok []).
  { destruct i as [|a c]; [now destruct Hne|].
    assert (Hmatch : id_matches (a :: c) newest = true).
    { unfold id_matches. rewrite Hid. apply bool_decide_eq_true_2. reflexivity. }
    rewrite scan_cursor. cbn [prefix_before]. rewrite Hmatch. reflexivity. }
  split; [exact Hrescan|]. split.
  - intros Hutf.
    assert (Hbind : sqlite_text (PStr i) = Ok (Some i))
      by (rewrite sqlite_text_str, Hutf; reflexivity).
    destruct (process_events_some usr api users
                (PList (map PDict (newest :: rest))) _ _ _ _ _ eq_refl Hscan
                Hget Hbind) as [Husers _].
    destruct (update_last_event_id_lookup (user_id usr) (Some i) users row Hrow)
      as (row' & Hrow' & Hcursor & _).
    exists row'. rewrite Husers. split; [exact Hrow'|]. split; [exact Hcursor|].
    rewrite Hcursor. exact Hrescan.
  - intros Hutf.
    assert (Hbind : sqlite_text (PStr i) = Raise UnicodeEncodeError)
      by (rewrite sqlite_text_str, Hutf; reflexivity).
    rewrite (process_events_unwritten usr api users
               (PList (map PDict (newest :: rest))) _ _ _ _ _ eq_refl Hscan
               Hget Hbind).
    reflexivity.
Qed.

End ProcessEvents.

(** ** The user registry and the mute store *)

Lemma are_notifications_enabled_answer uid now ms :
  fst (are_notifications_enabled uid now ms)
  = match get_disabled_until uid ms with
    | Some disabled_until => negb (now <? disabled_until)
    | None => true
    end.
Proof.
  unfold are_notifications_enabled, get_disabled_until.
  destruct (_disabled_until ms !! uid) as [until|].
  - destruct (now <? until); reflexivity.
  - destruct (notification_settings ms !! uid) as [until|]; [|reflexivity].
    destruct (now <? until); reflexivity.
Qed.

(** C3 (as amended).  Disconnecting a user removes the user record and
    leaves the mute store, durable rows and cache alike, as it was.  A
    later [are_notifications_enabled] for that id always returns: it
    answers true when the user has no mute window or one that has
    expired, and false while the window that was set before the deletion
    is still running. *)
Theorem C3_delete_keeps_mute (uid : Z) (st : bot_state) (now : Z) :
  let st' := change_workspace_callback uid st in
  db st' !! uid = None
  ∧ settings st' = settings st
  ∧ fst (are_notifications_enabled uid now (settings st'))
    = match get_disabled_until uid (settings st) with
      | Some disabled_until => negb (now <? disabled_until)
      | None => true
      end.
Proof.
  cbv zeta. unfold change_workspace_callback, delete_user. cbn [db settings].
  split; [apply lookup_delete_eq|]. split; [reflexivity|].
  apply are_notifications_enabled_answer.
Qed.

(** C3, counterexample.  User 1 connects at time 0 and mutes the bot for
    one hour.  After the user is deleted, the durable mute row and the
    cache entry are still there, and [are_notifications_enabled] at time
    50 answers false. *)
Lemma C3_mute_survives_delete_counterexample :
  let st := mk_bot_state (save_user_token 1 (u "token") 0 ∅)
                         (disable_notifications 1 1 0 (mk_mute_store ∅ ∅)) [] in
  let st' := change_workspace_callback 1 st in
  db st' !! 1 = None
  ∧ notification_settings (settings st') !! 1 = Some hour
  ∧ _disabled_until (settings st') !! 1 = Some hour
  ∧ fst (are_notifications_enabled 1 50 (settings st')) = false.
Proof.
  cbv zeta. repeat split; vm_compute; reflexivity.
Qed.

(** C5.  Two calls of [disable_notifications] for the same user leave the
    store exactly as the second call alone would: the durable table and
    the cache hold one window for the user, which ends [d2] hours after
    the reading of the clock in the second call, so the user is muted
    exactly until then. *)
Theorem C5_disable_overwrites (uid d1 d2 t1 t2 : Z) (ms : mute_store) :
  let ms2 := disable_notifications uid d2 t2
               (disable_notifications uid d1 t1 ms) in
  ms2 = disable_notifications uid d2 t2 ms
  ∧ notification_settings ms2 !! uid = Some (t2 + d2 * hour)
  ∧ _disabled_until ms2 !! uid = Some (t2 + d2 * hour)
  ∧ get_disabled_until uid ms2 = Some (t2 + d2 * hour)
  ∧ ∀ now, fst (are_notifications_enabled uid now ms2)
           = negb (now <? t2 + d2 * hour).
Proof.
  cbv zeta.
  assert (Hcache : _disabled_until
            (disable_notifications uid d2 t2 (disable_notifications uid d1 t1 ms))
            !! uid = Some (t2 + d2 * hour))
    by (cbn [disable_notifications _disabled_until]; apply lookup_insert_eq).
  split; [|split; [|split; [|split]]].
  - unfold disable_notifications.
    cbn [notification_settings _disabled_until].
    rewrite !insert_insert_eq. reflexivity.
  - cbn [disable_notifications notification_settings]. apply lookup_insert_eq.
  - exact Hcache.
  - unfold get_disabled_until. rewrite Hcache. reflexivity.
  - intros now. rewrite are_notifications_enabled_answer.
    unfold get_disabled_until. rewrite Hcache. reflexivity.
Qed.

(** C9.  [save_user_token] replaces the whole row of the user: whatever
    the table held before, the row afterwards has the new token, the
    enable flag at its default (true) and no cursor. *)
Theorem C9_save_token_resets_row (uid : Z) (token : pystr) (now : Z)
    (users : gmap Z user_row) :
  let users' := save_user_token uid token now users in
  users' !! uid = Some (mk_user_row (Some token) true None now)
  ∧ get_user_token uid users' = Some token
  ∧ (∃ row, users' !! uid = Some row
            ∧ notifications_enabled row = true
            ∧ last_event_id row = None)
  ∧ users' = save_user_token uid token now (delete_user uid users).
Proof.
  cbv zeta. unfold save_user_token, get_user_token, delete_user.
  rewrite lookup_insert_eq. split; [reflexivity|]. split; [reflexivity|].
  split; [eexists; repeat split|].
  rewrite insert_delete_eq. reflexivity.
Qed.

(** ** The final [strip] of the formatter *)

Lemma rstrip_snoc (s : pystr) (c : N) :
  rstrip (s ++ [c]) = if py_isspace c then rstrip s else s ++ [c].
Proof.
  unfold rstrip. rewrite rev_app_distr. cbn [rev app lstrip].
  destruct (py_isspace c); [reflexivity|].
  cbn [rev]. rewrite rev_involutive. reflexivity.
Qed.

Lemma strip_between_breaks (c1 c2 : N) (mid : pystr) :
  py_isspace c1 = false → py_isspace c2 = false →
  strip ([10%N] ++ (c1 :: mid ++ [c2]) ++ [10%N]) = c1 :: mid ++ [c2]
  ∧ strip ([10%N] ++ c1 :: mid ++ [c2]) = c1 :: mid ++ [c2].
Proof.
  intros H1 H2. unfold strip. cbn [app lstrip].
  change (py_isspace 10) with true. cbv iota. rewrite H1.
  change (c1 :: (mid ++ [c2]) ++ [10%N]) with ((c1 :: mid ++ [c2]) ++ [10%N]).
  rewrite rstrip_snoc. change (py_isspace 10) with true. cbv iota.
  change (c1 :: mid ++ [c2]) with ((c1 :: mid) ++ [c2]).
  rewrite rstrip_snoc, H2. auto.
Qed.

Lemma starts_with_app (p s : pystr) : starts_with p (p ++ s) = true.
Proof.
  induction p as [|a p IH]; [reflexivity|].
  cbn. rewrite N.eqb_refl. exact IH.
Qed.

Lemma message_head_core t a act time url :
  message_head t a act time url
  = [10%N] ++ message_core t a act time url ++ [10%N].
Proof.
  unfold message_head, message_core. rewrite <- !app_assoc. reflexivity.
Qed.

Lemma message_core_ends t a act time url :
  ∃ mid, message_core t a act time url = 128196%N :: mid ++ [62%N].
Proof.
  exists ([32; 60; 98; 62]%N ++ t ++ u "</b>" ++ [10%N; 10%N]
          ++ u "👤 " ++ a ++ u " " ++ act ++ [10%N; 10%N]
          ++ u "🕐 " ++ time ++ u " (МСК)" ++ [10%N; 10%N]
          ++ u "🔗 <a href=" ++ dquote ++ url ++ dquote
          ++ removelast (u ">Перейти к странице</a>")).
  unfold message_core.
  replace (u "📄 <b>") with ([128196; 32; 60; 98; 62]%N)
    by (vm_compute; reflexivity).
  replace (u ">Перейти к странице</a>")
    with (removelast (u ">Перейти к странице</a>") ++ [62%N]) at 1
    by (vm_compute; reflexivity).
  rewrite <- !app_assoc. cbn [app]. reflexivity.
Qed.

Lemma strip_head_with_comment t a act time url text :
  strip (message_head t a act time url ++ [10%N] ++ u "💬 <i>" ++ text
         ++ u "</i>")
  = message_core t a act time url ++ [10%N; 10%N] ++ u "💬 <i>" ++ text
    ++ u "</i>".
Proof.
  destruct (message_core_ends t a act time url) as [mid Hcore].
  rewrite message_head_core, Hcore.
  replace (u "</i>") with ([60; 47; 105]%N ++ [62%N])
    by (vm_compute; reflexivity).
  transitivity (strip ([10%N] ++ 128196%N
                 :: (mid ++ [62%N] ++ [10%N; 10%N] ++ u "💬 <i>" ++ text
                     ++ [60; 47; 105]%N) ++ [62%N])).
  - f_equal. rewrite <- !app_assoc. cbn [app]. rewrite <- ?app_assoc.
    cbn [app]. reflexivity.
  - rewrite (proj2 (strip_between_breaks 128196 62 _ eq_refl eq_refl)).
    rewrite <- !app_assoc. cbn [app]. rewrite <- ?app_assoc.
    cbn [app]. reflexivity.
Qed.

Lemma strip_head t a act time url :
  strip (message_head t a act time url) = message_core t a act time url.
Proof.
  destruct (message_core_ends t a act time url) as [mid Hcore].
  rewrite message_head_core, Hcore.
  apply (strip_between_breaks 128196 62 mid); reflexivity.
Qed.

(** ** The comment classifier and the formatter *)

Lemma allowlist_has_keyword (s : pystr) :
  str_in_list s comment_events = true → str_in (u "comment") s = true.
Proof.
  unfold str_in_list, comment_events. cbn [existsb].
  rewrite !orb_true_iff.
  intros H; repeat destruct H as [H|H]; try discriminate H;
    apply bool_decide_eq_true_1 in H; subst s; vm_compute; reflexivity.
Qed.

Section Formatter.

Variable lower : pystr -> pystr.
Variable repr : pyval -> pystr.
Variable w : world.

(** C10.  On every event the two-tier classifier and the substring test
    alone give the same result (the same truth value, or the same
    exception when the name is not a string): the exact allowlist adds
    nothing, because each of its entries contains ['comment']. *)
Theorem C10_allowlist_is_redundant (event : pyval) :
  _is_comment_event lower event = substring_classifier lower event
  ∧ Forall (fun entry => str_in (u "comment") entry = true) comment_events.
Proof.
  split.
  - unfold _is_comment_event, substring_classifier.
    destruct (py_get event (u "name") (PStr [])) as [name|e]; [|reflexivity].
    cbn [mbind result_bind].
    destruct (py_lower lower name) as [event_type|e]; [|reflexivity].
    cbn [mbind result_bind comment_keywords existsb]. f_equal.
    rewrite orb_false_r.
    destruct (str_in_list event_type comment_events) eqn:Hallow; [|reflexivity].
    rewrite (allowlist_has_keyword _ Hallow). reflexivity.
  - unfold comment_events. repeat constructor.
Qed.

Lemma format_with_body (event d : dict) (document : pyval) (body : pystr) :
  event !! u "data" = Some (PDict d) →
  d !! u "data" = Some (PStr body) →
  _format_notification lower repr w (PDict event) document
  = (message ← notification_head lower repr w (PDict event) document;
     Ok (strip (message ++
        match body with
        | [] => []
        | _ :: _ =>
            [10%N] ++ u "💬 <i>"
            ++ (if (200 <? length body)%nat then firstn 200 body ++ u "..."
                else firstn 200 body)
            ++ u "</i>"
        end))).
Proof.
  intros Hdata Hbody. unfold _format_notification.
  destruct (notification_head lower repr w (PDict event) document)
    as [message|e]; [|reflexivity].
  cbn [mbind result_bind py_get]. rewrite Hdata.
  cbn [default from_option id]. rewrite Hbody.
  cbn [default from_option id]. destruct body as [|c body].
  - cbn. rewrite app_nil_r. reflexivity.
  - change (truthy (PStr (c :: body))) with true. cbv iota.
    unfold comment_text_of. cbn [py_slice_to py_len mbind result_bind].
    unfold slice_to.
    destruct (200 <? length (c :: body))%nat; reflexivity.
Qed.

(** C6 (as amended).  For an event that carries a non-empty comment body
    [body] (a string under [data.data]) and whose [actor] is absent or a
    dictionary and whose [name] is absent or a string, and for every
    document dictionary, the formatter returns a message: the document
    line, the actor line, the time line and the link, then an empty line
    and the comment block.  The block holds the body itself, unmodified
    and without marker, when the body has at most 200 characters, and
    its first 200 characters followed by the marker ["..."] when it is
    longer. *)
Theorem C6_comment_truncation (event d document actor : dict)
    (name body : pystr) :
  event !! u "data" = Some (PDict d) →
  d !! u "data" = Some (PStr body) →
  body ≠ [] →
  default (PDict ∅) (event !! u "actor") = PDict actor →
  default (PStr []) (event !! u "name") = PStr name →
  ∃ rendered,
    _format_notification lower repr w (PDict event) (PDict document)
    = Ok (message_core
            (py_format repr
               (default (PStr (u "Без названия")) (document !! u "title")))
            (py_format repr
               (default (PStr (u "Неизвестный пользователь"))
                        (actor !! u "name")))
            (action_of (lower name)) (strftime_now w)
            (u "https://app.yonote.ru/doc/"
             ++ py_format repr (default (PStr []) (document !! u "id")))
          ++ [10%N; 10%N] ++ u "💬 <i>" ++ rendered ++ u "</i>")
    ∧ ((length body ≤ 200)%nat → rendered = body)
    ∧ ((200 < length body)%nat → rendered = firstn 200 body ++ u "...").
Proof.
  intros Hdata Hbody Hne Hactor Hname.
  exists (if (200 <? length body)%nat then firstn 200 body ++ u "..."
          else firstn 200 body).
  split.
  - rewrite (format_with_body _ _ _ _ Hdata Hbody).
    unfold notification_head. cbn [py_get mbind result_bind].
    rewrite Hactor. cbn [py_get mbind result_bind].
    rewrite Hname. cbn [py_lower mbind result_bind].
    destruct body as [|c body]; [now destruct Hne|].
    rewrite strip_head_with_comment. reflexivity.
  - split.
    + intros Hlen. apply Nat.ltb_ge in Hlen. rewrite Hlen.
      apply Nat.ltb_ge in Hlen. apply firstn_all2. exact Hlen.
    + intros Hlen. apply Nat.ltb_lt in Hlen. rewrite Hlen. reflexivity.
Qed.

(** C7, the failing input.  An event whose [actor] field is null makes
    the formatter raise [AttributeError] ([None] has no [get]) instead of
    falling back to the literal for an unknown actor. *)
Theorem C7_null_actor_raises :
  _format_notification lower repr w
    (PDict (mk_event [(u "id", PStr (u "e1"));
                      (u "name", PStr (u "comments.create"));
                      (u "documentId", PStr (u "d1"));
                      (u "actor", PNone)]))
    (PDict (mk_event [(u "id", PStr (u "d1")); (u "title", PStr (u "Page"))]))
  = Raise AttributeError.
Proof. vm_compute. reflexivity. Qed.

(** Missing fields do fall back to the literals: the message for an
    empty event and an empty document. *)
Lemma format_fallback_literals :
  _format_notification lower repr w (PDict ∅) (PDict ∅)
  = Ok (strip (message_head (u "Без названия") (u "Неизвестный пользователь")
                            (action_of (lower [])) (strftime_now w)
                            (u "https://app.yonote.ru/doc/"))).
Proof.
  unfold _format_notification, notification_head.
  cbn [py_get mbind result_bind py_lower].
  rewrite !lookup_empty. cbn [default py_format mbind result_bind py_lower].
  rewrite lookup_empty. cbn [default truthy]. rewrite app_nil_r. reflexivity.
Qed.

(** On such events the formatter returns a message, whatever the
    document dictionary holds. *)
Lemma format_total_on_typed_fields (event document : dict) :
  typed_fields event →
  ∃ message,
    _format_notification lower repr w (PDict event) (PDict document) = Ok message.
Proof.
  intros (Hactor & Hname & Hdata).
  unfold _format_notification, notification_head, py_get.
  destruct (event !! u "actor") as [[| | | | |actor]|]; try contradiction;
    destruct (event !! u "name") as [[| | |name| |]|]; try contradiction;
    cbn [default from_option id mbind result_bind py_lower];
    (destruct (event !! u "data") as [[| | | | |d]|];
     cbn [default from_option id mbind result_bind];
     try (eexists; reflexivity);
     destruct (d !! u "data") as [[|b|z|body|items|inner]|];
     cbn [default from_option id] in Hdata |- *;
     try rewrite Hdata; try (eexists; reflexivity);
     unfold comment_text_of; cbn [py_slice_to py_len mbind result_bind];
     match goal with
     | |- context [truthy ?v] => destruct (truthy v)
     end;
     try (eexists; reflexivity);
     match goal with
     | |- context [(200 <? ?n)%nat] => destruct (200 <? n)%nat
     end; eexists; reflexivity).
Qed.

End Formatter.

(** ** The notification cycle on concrete inputs *)

(** On the path without exception the session of the client is closed
    after the notification has been sent. *)
Lemma check_notifications_closes_on_success :
  ∃ message,
    trace (check_notifications str_lower repr_stub
             (world_with_page [comment_event [(u "id", PStr (u "e1"))]])
             one_user)
    = [SessionOpen (Some (u "token")); events_request;
       SetLastEventId 7 (Some (u "e1"));
       Request (Some (u "token")) (u "documents.info")
               (PDict (<[u "id" := PStr (u "d1")]> ∅));
       SendMessage 7 message;
       SessionClose (Some (u "token"))].
Proof. eexists. vm_compute. reflexivity. Qed.

(** C4, the failing input.  The page of the user holds one event without
    [id]: [new_events[0]['id']] raises [KeyError] inside
    [_process_events], the [except] branch of [check_notifications] is
    taken, and the cycle ends with the session of the client opened and
    never closed. *)
Theorem C4_session_left_open :
  let st := check_notifications str_lower repr_stub
              (world_with_page [comment_event []]) one_user in
  trace st = [SessionOpen (Some (u "token")); events_request]
  ∧ ¬ In (SessionClose (Some (u "token"))) (trace st).
Proof.
  cbv zeta.
  assert (Htrace :
    trace (check_notifications str_lower repr_stub
             (world_with_page [comment_event []]) one_user)
    = [SessionOpen (Some (u "token")); events_request])
    by (vm_compute; reflexivity).
  split; [exact Htrace|]. rewrite Htrace.
  intros [H|[H|[]]]; discriminate H.
Qed.

(** C8, counterexample.  A fresh user and a page of one event whose id is
    the empty string: the new-events list is the whole page, the stored
    cursor becomes the empty string, and the scan of the same page
    against the updated cursor returns the whole page again. *)
Lemma C8_empty_id_counterexample :
  let usr := mk_user 7 (Some (u "token")) true None in
  let users : gmap Z user_row :=
    {[7 := mk_user_row (Some (u "token")) true None 0]} in
  let page := [PDict (mk_event [(u "id", PStr [])])] in
  let o := _process_events str_lower repr_stub quiet_world usr (PList page)
                           (new_YonoteAPI (Some (u "token"))) users in
  scan_new_events (user_last_event_id usr) page = Ok page
  ∧ out_users o !! 7 = Some (mk_user_row (Some (u "token")) true (Some []) 0)
  ∧ scan_new_events (Some []) page = Ok page
  ∧ scan_new_events (Some []) page ≠ Ok [].
Proof.
  cbv zeta. split; [reflexivity|]. split; [vm_compute; reflexivity|].
  split; [reflexivity|]. discriminate.
Qed.

(** ** The theorems at concrete inputs *)

(** The scenario of the specification, run: the new events are E5 and
    E4, the cursor moves to E5 first, and one message, for E4, is sent. *)
Lemma spec_scenario_runs :
  let o := _process_events str_lower repr_stub (world_with_page [])
             spec_user (PList (map PDict spec_page))
             (new_YonoteAPI (Some (u "token"))) spec_users in
  scan_new_events (user_last_event_id spec_user) (map PDict spec_page)
  = Ok (map PDict (firstn 2 spec_page))
  ∧ out_users o !! 7
    = Some (mk_user_row (Some (u "token")) true (Some (u "E5")) 0)
  ∧ ∃ message,
      out_effects o
      = [SetLastEventId 7 (Some (u "E5"));
         SessionOpen (Some (u "token"));
         Request (Some (u "token")) (u "documents.info")
                 (PDict (<[u "id" := PStr (u "d1")]> ∅));
         SendMessage 7 message].
Proof.
  cbv zeta. split; [vm_compute; reflexivity|]. split; [vm_compute; reflexivity|].
  eexists. vm_compute. reflexivity.
Qed.

(** C2 at the scenario of the specification. *)
Lemma C2_cursor_advance_witness :
  spec_users !! user_id spec_user
  = Some (mk_user_row (Some (u "token")) true (Some (u "E3")) 0)
  ∧ let new_events :=
      scan_new_events (user_last_event_id spec_user) (map PDict spec_page) in
    let o := _process_events str_lower repr_stub (world_with_page [])
               spec_user (PList (map PDict spec_page))
               (new_YonoteAPI (Some (u "token"))) spec_users in
    (new_events = Ok [] → out_users o = spec_users ∧ out_effects o = [])
    ∧ (∀ newest older i,
         new_events = Ok (PDict newest :: older) →
         newest !! u "id" = Some (PStr i) →
         utf8_encodable i = true →
         (∃ row', out_users o !! user_id spec_user = Some row'
                  ∧ last_event_id row' = Some i)
         ∧ (∃ later,
              out_effects o = SetLastEventId (user_id spec_user) (Some i) :: later)
         ∧ (∀ before chat text after,
              out_effects o = before ++ SendMessage chat text :: after →
              In (SetLastEventId (user_id spec_user) (Some i)) before)).
Proof.
  split; [vm_compute; reflexivity|].
  apply (C2_cursor_advance str_lower repr_stub (world_with_page []) spec_user
           (new_YonoteAPI (Some (u "token"))) spec_users
           (mk_user_row (Some (u "token")) true (Some (u "E3")) 0) spec_page).
  vm_compute; reflexivity.
Defined.

(** C2, counterexample.  User 7 has a row and no cursor.  On a page whose
    only event has no [id], and on a page whose only event has an id
    that UTF-8 cannot encode, the new-events list is the whole page, so
    it is not empty, and yet no cursor is written: the call raises with
    the table as it was and nothing done. *)
Lemma C2_unwritten_cursor_counterexample :
  let api := new_YonoteAPI (Some (u "token")) in
  let no_id := [comment_event []] in
  let odd_id := [comment_event [(u "id", PStr [55296%N])]] in
  let o1 := _process_events str_lower repr_stub (world_with_page []) user7
              (PList no_id) api (db one_user) in
  let o2 := _process_events str_lower repr_stub (world_with_page []) user7
              (PList odd_id) api (db one_user) in
  db one_user !! 7 = Some row7
  ∧ scan_new_events (user_last_event_id user7) no_id = Ok no_id
  ∧ out_users o1 = db one_user ∧ out_effects o1 = []
  ∧ out_result o1 = Raise KeyError
  ∧ scan_new_events (user_last_event_id user7) odd_id = Ok odd_id
  ∧ out_users o2 = db one_user ∧ out_effects o2 = []
  ∧ out_result o2 = Raise UnicodeEncodeError.
Proof. cbv zeta. repeat split; vm_compute; reflexivity. Qed.

(** C8 at the scenario of the specification: the rescan against E5. *)
Lemma C8_rescan_is_empty_witness :
  let newest := mk_event [(u "id", PStr (u "E5"));
                          (u "name", PStr (u "documents.update"))] in
  let rest := tail spec_page in
  let o := _process_events str_lower repr_stub (world_with_page [])
             spec_user (PList (map PDict (newest :: rest)))
             (new_YonoteAPI (Some (u "token"))) spec_users in
  scan_new_events (Some (u "E5")) (map PDict (newest :: rest)) = Ok []
  ∧ (utf8_encodable (u "E5") = true →
     ∃ row', out_users o !! user_id spec_user = Some row'
             ∧ last_event_id row' = Some (u "E5")
             ∧ scan_new_events (last_event_id row') (map PDict (newest :: rest))
               = Ok [])
  ∧ (utf8_encodable (u "E5") = false → out_users o = spec_users).
Proof.
  cbv zeta.
  apply (C8_rescan_is_empty str_lower repr_stub (world_with_page []) spec_user
           (new_YonoteAPI (Some (u "token"))) spec_users
           (mk_user_row (Some (u "token")) true (Some (u "E3")) 0)).
  - vm_compute; reflexivity.
  - vm_compute; reflexivity.
  - vm_compute; discriminate.
  - vm_compute; discriminate.
Defined.

(** C6 at a comment body of 201 characters. *)
Lemma C6_comment_truncation_witness :
  long_event !! u "data" = Some (PDict long_comment)
  ∧ long_comment !! u "data" = Some (PStr long_body)
  ∧ long_body ≠ []
  ∧ default (PDict ∅) (long_event !! u "actor") = PDict ∅
  ∧ default (PStr []) (long_event !! u "name") = PStr (u "comments.create")
  ∧ ∃ rendered,
      _format_notification str_lower repr_stub quiet_world (PDict long_event)
                           (PDict ∅)
      = Ok (message_core
              (py_format repr_stub
                 (default (PStr (u "Без названия")) ((∅ : dict) !! u "title")))
              (py_format repr_stub
                 (default (PStr (u "Неизвестный пользователь"))
                          ((∅ : dict) !! u "name")))
              (action_of (str_lower (u "comments.create")))
              (strftime_now quiet_world)
              (u "https://app.yonote.ru/doc/"
               ++ py_format repr_stub
                    (default (PStr []) ((∅ : dict) !! u "id")))
            ++ [10%N; 10%N] ++ u "💬 <i>" ++ rendered ++ u "</i>")
      ∧ ((length long_body ≤ 200)%nat → rendered = long_body)
      ∧ ((200 < length long_body)%nat →
         rendered = firstn 200 long_body ++ u "...").
Proof.
  split; [vm_compute; reflexivity|]. split; [vm_compute; reflexivity|].
  split; [vm_compute; discriminate|].
  split; [vm_compute; reflexivity|]. split; [vm_compute; reflexivity|].
  apply (C6_comment_truncation str_lower repr_stub quiet_world long_event
           long_comment ∅ ∅ (u "comments.create") long_body).
  - vm_compute; reflexivity.
  - vm_compute; reflexivity.
  - vm_compute; discriminate.
  - vm_compute; reflexivity.
  - vm_compute; reflexivity.
Defined.

(** C6, counterexample.  An event with a comment body of 201 characters
    and a null [actor]: the formatter raises and renders nothing.  An
    event whose comment body is the empty string: the message is the head
    alone, without comment block. *)
Lemma C6_unrendered_body_counterexample :
  let null_actor := mk_event [(u "name", PStr (u "comments.create"));
                              (u "actor", PNone);
                              (u "data", PDict long_comment)] in
  let empty_body := mk_event [(u "name", PStr (u "comments.create"));
                              (u "data", PDict (mk_event [(u "data", PStr [])]))] in
  null_actor !! u "data" = Some (PDict long_comment)
  ∧ long_comment !! u "data" = Some (PStr long_body)
  ∧ length long_body = 201%nat
  ∧ _format_notification str_lower repr_stub quiet_world (PDict null_actor)
                         (PDict ∅)
    = Raise AttributeError
  ∧ _format_notification str_lower repr_stub quiet_world (PDict empty_body)
                         (PDict ∅)
    = Ok (message_core (u "Без названия") (u "Неизвестный пользователь")
                       (u "создал комментарий") (strftime_now quiet_world)
                       (u "https://app.yonote.ru/doc/")).
Proof. cbv zeta. repeat split; vm_compute; reflexivity. Qed.

(** * Further properties of the stores *)

(** ** [NotificationSettings] *)

Lemma are_notifications_enabled_cases uid now ms :
  (fst (are_notifications_enabled uid now ms) = true
   ∧ (snd (are_notifications_enabled uid now ms) = ms
      ∧ get_disabled_until uid ms = None
      ∨ snd (are_notifications_enabled uid now ms) = enable_notifications uid ms))
  ∨ (fst (are_notifications_enabled uid now ms) = false
     ∧ notification_settings (snd (are_notifications_enabled uid now ms))
       = notification_settings ms
     ∧ ∃ until, get_disabled_until uid ms = Some until
                ∧ now < until
                ∧ _disabled_until (snd (are_notifications_enabled uid now ms))
                  = <[uid := until]> (_disabled_until ms)).
Proof.
  unfold are_notifications_enabled, get_disabled_until.
  destruct (_disabled_until ms !! uid) as [until|] eqn:Hcache.
  - destruct (now <? until) eqn:Hlt; cbn [fst snd].
    + right. split; [reflexivity|]. split; [reflexivity|].
      exists until. apply Z.ltb_lt in Hlt.
      rewrite insert_id by exact Hcache. auto.
    + left. auto.
  - destruct (notification_settings ms !! uid) as [until|] eqn:Hrow.
    + destruct (now <? until) eqn:Hlt; cbn [fst snd].
      * right. split; [reflexivity|]. split; [reflexivity|].
        exists until. apply Z.ltb_lt in Hlt. auto.
      * left. auto.
    + left. cbn [fst snd]. auto.
Qed.

Lemma get_disabled_until_enable uid ms :
  get_disabled_until uid (enable_notifications uid ms) = None.
Proof.
  unfold get_disabled_until, enable_notifications.
  cbn [_disabled_until notification_settings].
  rewrite !lookup_delete_eq. reflexivity.
Qed.

Lemma are_notifications_enabled_no_window uid now ms :
  get_disabled_until uid ms = None →
  are_notifications_enabled uid now ms = (true, ms).
Proof.
  unfold get_disabled_until, are_notifications_enabled.
  destruct (_disabled_until ms !! uid); [discriminate|].
  intros ->. reflexivity.
Qed.

(** X1.  Expiry is monotonic: once [are_notifications_enabled] has
    answered true for a user, every later call for that user, at whatever
    reading of the clock, answers true and changes nothing, as long as no
    other operation is applied to the store in between. *)
Theorem mute_expiry_is_monotonic (uid now : Z) (ms : mute_store) :
  fst (are_notifications_enabled uid now ms) = true →
  let ms' := snd (are_notifications_enabled uid now ms) in
  ∀ later, are_notifications_enabled uid later ms' = (true, ms').
Proof.
  intros Htrue ms' later. subst ms'.
  apply are_notifications_enabled_no_window.
  destruct (are_notifications_enabled_cases uid now ms)
    as [[_ [[-> Hnone] | ->]] | [Hfalse _]].
  - exact Hnone.
  - apply get_disabled_until_enable.
  - congruence.
Qed.

Lemma mute_expiry_is_monotonic_witness :
  let ms := disable_notifications 1 1 0 (mk_mute_store ∅ ∅) in
  fst (are_notifications_enabled 1 (2 * hour) ms) = true
  ∧ let ms' := snd (are_notifications_enabled 1 (2 * hour) ms) in
    ∀ later, are_notifications_enabled 1 later ms' = (true, ms').
Proof.
  cbv zeta. split; [vm_compute; reflexivity|].
  apply (mute_expiry_is_monotonic 1 (2 * hour)
           (disable_notifications 1 1 0 (mk_mute_store ∅ ∅))).
  vm_compute; reflexivity.
Defined.

(** X2.  The cache never contradicts the durable table: starting from a
    store in which every cached window equals the stored one, each of
    the three operations gives such a store again; and in such a store
    [get_disabled_until] reports exactly the durable row. *)
Theorem mute_cache_stays_coherent (uid hours now : Z) (ms : mute_store) :
  cache_coherent ms →
  cache_coherent (disable_notifications uid hours now ms)
  ∧ cache_coherent (enable_notifications uid ms)
  ∧ cache_coherent (snd (are_notifications_enabled uid now ms))
  ∧ ∀ v, get_disabled_until v ms = notification_settings ms !! v.
Proof.
  intros Hco. split; [|split; [|split]].
  - intros v until. unfold disable_notifications.
    cbn [_disabled_until notification_settings].
    rewrite !lookup_insert. case_decide; [auto|]. apply Hco.
  - intros v until. unfold enable_notifications.
    cbn [_disabled_until notification_settings].
    rewrite !lookup_delete. case_decide; [discriminate|]. apply Hco.
  - intros v until'.
    destruct (are_notifications_enabled_cases uid now ms)
      as [[_ [[-> _] | ->]] | [_ [Hrows (until & Hget & _ & Hcache)]]].
    + apply Hco.
    + unfold enable_notifications.
      cbn [_disabled_until notification_settings].
      rewrite !lookup_delete. case_decide; [discriminate|]. apply Hco.
    + rewrite Hrows, Hcache, lookup_insert.
      case_decide as Huid; [|apply Hco]. subst v.
      intros [= <-]. unfold get_disabled_until in Hget.
      destruct (_disabled_until ms !! uid) as [c|] eqn:Hc; [|exact Hget].
      injection Hget as ->. apply Hco. exact Hc.
  - intros v. unfold get_disabled_until.
    destruct (_disabled_until ms !! v) as [c|] eqn:Hc; [|reflexivity].
    symmetry. apply Hco. exact Hc.
Qed.

Lemma mute_cache_stays_coherent_witness :
  let ms := disable_notifications 2 4 10 (mk_mute_store ∅ ∅) in
  cache_coherent ms
  ∧ (cache_coherent (disable_notifications 1 1 0 ms)
     ∧ cache_coherent (enable_notifications 1 ms)
     ∧ cache_coherent (snd (are_notifications_enabled 1 0 ms))
     ∧ ∀ v, get_disabled_until v ms = notification_settings ms !! v).
Proof.
  cbv zeta.
  assert (Hco : cache_coherent (disable_notifications 2 4 10 (mk_mute_store ∅ ∅))).
  { intros v until. unfold disable_notifications.
    cbn [_disabled_until notification_settings]. auto. }
  split; [exact Hco|].
  exact (mute_cache_stays_coherent 1 1 0 _ Hco).
Defined.

(** X3.  [enable_notifications] clears the window of the user in both
    tiers: afterwards no window is reported, the user is enabled at every
    reading of the clock, enabling again changes nothing, and a
    [disable_notifications] made before it leaves no trace. *)
Theorem enable_clears_mute (uid hours t now : Z) (ms : mute_store) :
  let ms' := enable_notifications uid ms in
  get_disabled_until uid ms' = None
  ∧ are_notifications_enabled uid now ms' = (true, ms')
  ∧ enable_notifications uid ms' = ms'
  ∧ enable_notifications uid (disable_notifications uid hours t ms) = ms'.
Proof.
  cbv zeta. split; [apply get_disabled_until_enable|].
  split; [apply are_notifications_enabled_no_window, get_disabled_until_enable|].
  unfold enable_notifications, disable_notifications.
  cbn [_disabled_until notification_settings].
  rewrite !delete_delete_eq, !delete_insert_eq. auto.
Qed.

(** X4.  The three operations on the window of one user leave the
    windows of every other user as they were, in the durable table and
    in the cache. *)
Theorem mute_operations_are_per_user (uid v hours now : Z) (ms : mute_store) :
  v ≠ uid →
  let untouched (ms' : mute_store) :=
    notification_settings ms' !! v = notification_settings ms !! v
    ∧ _disabled_until ms' !! v = _disabled_until ms !! v in
  untouched (disable_notifications uid hours now ms)
  ∧ untouched (enable_notifications uid ms)
  ∧ untouched (snd (are_notifications_enabled uid now ms)).
Proof.
  intros Hne. cbv zeta. split; [|split].
  - unfold disable_notifications. cbn [_disabled_until notification_settings].
    rewrite !lookup_insert_ne by congruence. auto.
  - unfold enable_notifications. cbn [_disabled_until notification_settings].
    rewrite !lookup_delete_ne by congruence. auto.
  - destruct (are_notifications_enabled_cases uid now ms)
      as [[_ [[-> _] | ->]] | [_ [Hrows (until & _ & _ & Hcache)]]].
    + auto.
    + unfold enable_notifications. cbn [_disabled_until notification_settings].
      rewrite !lookup_delete_ne by congruence. auto.
    + rewrite Hrows, Hcache, lookup_insert_ne by congruence. auto.
Qed.

Lemma mute_operations_are_per_user_witness :
  let ms := disable_notifications 2 4 10 (mk_mute_store ∅ ∅) in
  2 ≠ 1
  ∧ let untouched (ms' : mute_store) :=
      notification_settings ms' !! 2 = notification_settings ms !! 2
      ∧ _disabled_until ms' !! 2 = _disabled_until ms !! 2 in
    untouched (disable_notifications 1 1 0 ms)
    ∧ untouched (enable_notifications 1 ms)
    ∧ untouched (snd (are_notifications_enabled 1 0 ms)).
Proof.
  cbv zeta. split; [lia|].
  apply (mute_operations_are_per_user 1 2 1 0
           (disable_notifications 2 4 10 (mk_mute_store ∅ ∅))).
  lia.
Defined.

(** X5.  A check that finds the user muted is a pure read of the
    durable table: the table is unchanged and the window reported for
    any user is the one reported before; the only write is the cache
    entry of the user, set to that very window. *)
Theorem muted_check_reads_only (uid now : Z) (ms : mute_store) :
  fst (are_notifications_enabled uid now ms) = false →
  let ms' := snd (are_notifications_enabled uid now ms) in
  notification_settings ms' = notification_settings ms
  ∧ (∀ v, get_disabled_until v ms' = get_disabled_until v ms)
  ∧ ∃ until, get_disabled_until uid ms = Some until ∧ now < until
             ∧ _disabled_until ms' !! uid = Some until.
Proof.
  intros Hfalse. cbv zeta.
  destruct (are_notifications_enabled_cases uid now ms)
    as [[Htrue _] | [_ [Hrows (until & Hget & Hlt & Hcache)]]]; [congruence|].
  split; [exact Hrows|]. split.
  - intros v. unfold get_disabled_until at 1. rewrite Hrows, Hcache.
    destruct (decide (v = uid)) as [->|Hne].
    + rewrite lookup_insert_eq. symmetry. exact Hget.
    + rewrite lookup_insert_ne by congruence. reflexivity.
  - exists until. rewrite Hcache, lookup_insert_eq. auto.
Qed.

Lemma muted_check_reads_only_witness :
  let ms := mk_mute_store {[1 := hour]} ∅ in
  fst (are_notifications_enabled 1 50 ms) = false
  ∧ let ms' := snd (are_notifications_enabled 1 50 ms) in
    notification_settings ms' = notification_settings ms
    ∧ (∀ v, get_disabled_until v ms' = get_disabled_until v ms)
    ∧ ∃ until, get_disabled_until 1 ms = Some until ∧ 50 < until
               ∧ _disabled_until ms' !! 1 = Some until.
Proof.
  cbv zeta. split; [vm_compute; reflexivity|].
  apply (muted_check_reads_only 1 50 (mk_mute_store {[1 := hour]} ∅)).
  vm_compute; reflexivity.
Defined.

(** ** [Database] *)

(** X6.  [get_all_users] lists every row once: the user ids of the list
    are pairwise distinct, and a dictionary is in the list exactly when
    the table has a row with its id, token, flag and cursor. *)
Theorem get_all_users_lists_each_row_once (users : gmap Z user_row) :
  NoDup (map user_id (get_all_users users))
  ∧ ∀ usr, In usr (get_all_users users)
           ↔ ∃ row, users !! user_id usr = Some row
                    ∧ user_yonote_token usr = yonote_token row
                    ∧ user_notifications_enabled usr = notifications_enabled row
                    ∧ user_last_event_id usr = last_event_id row.
Proof.
  unfold get_all_users. split.
  - rewrite map_map. cbn [user_id]. apply NoDup_fst_map_to_list.
  - intros usr. rewrite in_map_iff. split.
    + intros ([uid row] & <- & Hin). cbn.
      apply list_elem_of_In, elem_of_map_to_list in Hin. eauto.
    + intros (row & Hrow & Htoken & Hflag & Hcursor).
      exists (user_id usr, row). split.
      * destruct usr; cbn in *; congruence.
      * apply list_elem_of_In, elem_of_map_to_list. exact Hrow.
Qed.

(** X7.  [update_last_event_id] is an UPDATE: for a user without row it
    changes nothing (it never creates a row); for a user with a row it
    replaces the cursor and keeps token, flag and creation time; the rows
    of the other users and the set of registered ids are unchanged. *)
Theorem update_last_event_id_is_an_update (uid : Z) (event_id : option pystr)
    (users : gmap Z user_row) :
  let users' := update_last_event_id uid event_id users in
  (users !! uid = None → users' = users)
  ∧ (∀ row, users !! uid = Some row →
       users' !! uid
       = Some (mk_user_row (yonote_token row) (notifications_enabled row)
                           event_id (created_at row)))
  ∧ (∀ v, v ≠ uid → users' !! v = users !! v)
  ∧ dom users' = dom users.
Proof.
  cbv zeta. unfold update_last_event_id. split; [|split; [|split]].
  - intros Hnone. apply map_eq. intros v. rewrite lookup_alter.
    case_decide; [subst v; rewrite Hnone|]; reflexivity.
  - intros row Hrow. rewrite lookup_alter_eq, Hrow. reflexivity.
  - intros v Hne. apply lookup_alter_ne. congruence.
  - apply dom_alter_L.
Qed.

(** X8.  [update_notifications_enabled] is an UPDATE as well: it changes
    the flag of an existing row only, keeps its token and cursor, and
    never creates a row; the rows of the other users and the set of
    registered ids are unchanged. *)
Theorem update_notifications_enabled_is_an_update (uid : Z) (enabled : bool)
    (users : gmap Z user_row) :
  let users' := update_notifications_enabled uid enabled users in
  (users !! uid = None → users' = users)
  ∧ (∀ row, users !! uid = Some row →
       users' !! uid
       = Some (mk_user_row (yonote_token row) enabled (last_event_id row)
                           (created_at row)))
  ∧ (∀ v, v ≠ uid → users' !! v = users !! v)
  ∧ dom users' = dom users.
Proof.
  cbv zeta. unfold update_notifications_enabled. split; [|split; [|split]].
  - intros Hnone. apply map_eq. intros v. rewrite lookup_alter.
    case_decide; [subst v; rewrite Hnone|]; reflexivity.
  - intros row Hrow. rewrite lookup_alter_eq, Hrow. reflexivity.
  - intros v Hne. apply lookup_alter_ne. congruence.
  - apply dom_alter_L.
Qed.

(** X9.  The token registry round trip: after [save_user_token] the
    token read for that user is the saved one and the tokens of the
    others are as before; after [delete_user] no token is read for that
    user and the others are as before; deleting a user who is not
    registered, or deleting twice, changes nothing more. *)
Theorem token_registry_round_trip (uid v : Z) (token : pystr) (now : Z)
    (users : gmap Z user_row) :
  get_user_token v (save_user_token uid token now users)
  = (if decide (v = uid) then Some token else get_user_token v users)
  ∧ get_user_token v (delete_user uid users)
    = (if decide (v = uid) then None else get_user_token v users)
  ∧ (users !! uid = None → delete_user uid users = users)
  ∧ delete_user uid (delete_user uid users) = delete_user uid users.
Proof.
  unfold get_user_token, save_user_token, delete_user.
  split; [|split; [|split]].
  - rewrite lookup_insert. destruct (decide (v = uid)) as [->|Hne].
    + rewrite decide_True by reflexivity. reflexivity.
    + rewrite decide_False by congruence. reflexivity.
  - rewrite lookup_delete. destruct (decide (v = uid)) as [->|Hne].
    + rewrite decide_True by reflexivity. reflexivity.
    + rewrite decide_False by congruence. reflexivity.
  - apply delete_id.
  - apply delete_delete_eq.
Qed.

(** * Further properties of the client, the classifier and the cycle *)

(** ** [YonoteAPI] *)

Lemma perform_request w api call :
  perform w api call
  = (mk_YonoteAPI (api_token api) true,
     (if session api then [] else [SessionOpen (api_token api)])
     ++ [request_of (api_token api) call],
     snd (perform w api call)).
Proof.
  destruct api as [token [|]], call; reflexivity.
Qed.

Lemma perform_all_open w token calls :
  perform_all w (mk_YonoteAPI token true) calls
  = (mk_YonoteAPI token true, map (request_of token) calls).
Proof.
  induction calls as [|call calls IH]; [reflexivity|].
  cbn [perform_all]. rewrite perform_request. cbn [api_token session].
  rewrite IH. reflexivity.
Qed.

(** X10.  A client opens its session lazily and once: whatever sequence
    of requests is made on a new client, the log is one [SessionOpen]
    followed by one request per call, all with the token of the client;
    [close] then closes that session, and on a client that made no
    request it does nothing. *)
Theorem client_opens_one_session (w : world) (token : option pystr)
    (calls : list api_call) :
  let '(api, done) := perform_all w (new_YonoteAPI token) calls in
  match calls with
  | [] => done = [] ∧ close api = []
  | _ :: _ =>
      done = SessionOpen token :: map (request_of token) calls
      ∧ close api = [SessionClose token]
  end.
Proof.
  destruct calls as [|call calls]; [cbn; auto|].
  cbn [perform_all]. rewrite perform_request. cbn [new_YonoteAPI api_token session].
  rewrite perform_all_open. cbn. auto.
Qed.

(** ** The scan of new events on arbitrary items *)

(** X11.  On any list of decoded values, dictionaries or not: with no
    cursor, or the empty one, the scan returns the whole list and never
    raises; whenever it returns, the result is a prefix of the list; and
    the only exception it raises is [AttributeError], on a list that
    holds an item that is not a dictionary. *)
Theorem scan_new_events_on_any_items (c : option pystr) (items : list pyval) :
  (c = None ∨ c = Some [] → scan_new_events c items = Ok items)
  ∧ (∀ new, scan_new_events c items = Ok new → ∃ rest, items = new ++ rest)
  ∧ (∀ e, scan_new_events c items = Raise e →
          e = AttributeError ∧ Exists (fun v => ∀ d, v ≠ PDict d) items).
Proof.
  split; [|split].
  - intros [-> | ->]; induction items as [|v items IH]; cbn;
      try reflexivity; rewrite IH; reflexivity.
  - induction items as [|v items IH]; intros new Hscan.
    + injection Hscan as <-. exists []. reflexivity.
    + cbn [scan_new_events] in Hscan.
      destruct (match c with
                | Some c0 =>
                    if truthy (PStr c0)
                    then i ← py_get v (u "id") PNone; Ok (py_eq_str i c0)
                    else Ok false
                | None => Ok false
                end) as [[|]|e]; cbn in Hscan.
      * injection Hscan as <-. exists (v :: items). reflexivity.
      * destruct (scan_new_events c items) as [new'|e]; [|discriminate].
        cbn in Hscan. injection Hscan as <-.
        destruct (IH new' eq_refl) as [rest ->]. exists rest. reflexivity.
      * discriminate.
  - induction items as [|v items IH]; intros e Hscan; [discriminate|].
    cbn [scan_new_events] in Hscan.
    destruct c as [c0|].
    + destruct (truthy (PStr c0)).
      * destruct v as [| | | | |d];
          try (cbn in Hscan; injection Hscan as <-;
               split; [reflexivity|]; left; intros d; discriminate).
        cbn in Hscan.
        destruct (py_eq_str (default PNone (d !! u "id")) c0);
          [discriminate|].
        destruct (scan_new_events (Some c0) items) as [new'|e'];
          [discriminate|].
        cbn in Hscan. injection Hscan as <-.
        destruct (IH e' eq_refl) as [-> Hex]. split; [reflexivity|].
        right. exact Hex.
      * cbn in Hscan.
        destruct (scan_new_events (Some c0) items) as [new'|e'];
          [discriminate|].
        cbn in Hscan. injection Hscan as <-.
        destruct (IH e' eq_refl) as [-> Hex]. split; [reflexivity|].
        right. exact Hex.
    + cbn in Hscan.
      destruct (scan_new_events None items) as [new'|e']; [discriminate|].
      cbn in Hscan. injection Hscan as <-.
      destruct (IH e' eq_refl) as [-> Hex]. split; [reflexivity|].
      right. exact Hex.
Qed.

(** ** One notification and one user of the cycle *)

Lemma get_document_info_eq w api document_id :
  get_document_info w api document_id
  = (mk_YonoteAPI (api_token api) true,
     (if session api then [] else [SessionOpen (api_token api)])
     ++ [Request (api_token api) (u "documents.info")
                 (PDict (<[u "id" := document_id]> ∅))],
     respond w (api_token api) (u "documents.info")
             (PDict (<[u "id" := document_id]> ∅))).
Proof. destruct api as [token [|]]; reflexivity. Qed.

Section Cycle.

Variable lower : pystr -> pystr.
Variable repr : pyval -> pystr.
Variable w : world.

(** The three shapes of what [_send_notification] does. *)
Lemma send_notification_shape uid event api :
  let opened := if session api then [] else [SessionOpen (api_token api)] in
  _send_notification lower repr w uid event api = (api, [])
  ∨ (∃ document_id,
       _send_notification lower repr w uid event api
       = (mk_YonoteAPI (api_token api) true,
          opened ++ [Request (api_token api) (u "documents.info")
                             (PDict (<[u "id" := document_id]> ∅))]))
  ∨ (∃ document_id ok document text,
       py_get event (u "documentId") PNone = Ok document_id
       ∧ truthy document_id = true
       ∧ truthy (respond w (api_token api) (u "documents.info")
                         (PDict (<[u "id" := document_id]> ∅))) = true
       ∧ py_get (respond w (api_token api) (u "documents.info")
                         (PDict (<[u "id" := document_id]> ∅)))
                (u "ok") PNone = Ok ok
       ∧ truthy ok = true
       ∧ py_get (respond w (api_token api) (u "documents.info")
                         (PDict (<[u "id" := document_id]> ∅)))
                (u "data") (PDict ∅) = Ok document
       ∧ _format_notification lower repr w event document = Ok text
       ∧ _send_notification lower repr w uid event api
         = (mk_YonoteAPI (api_token api) true,
            (opened ++ [Request (api_token api) (u "documents.info")
                                (PDict (<[u "id" := document_id]> ∅))])
            ++ [SendMessage uid text])).
Proof.
  cbv zeta. unfold _send_notification.
  destruct (py_get event (u "documentId") PNone) as [document_id|e]; [|auto].
  destruct (truthy document_id) eqn:Hid; cbn [negb]; [|auto].
  rewrite get_document_info_eq.
  set (doc_info := respond w (api_token api) (u "documents.info")
                           (PDict (<[u "id" := document_id]> ∅))).
  destruct (truthy doc_info) eqn:Hdoc; cbn [negb]; [|right; left; eauto].
  destruct (py_get doc_info (u "ok") PNone) as [ok|e] eqn:Hok;
    cbn [mbind result_bind]; [|right; left; eauto].
  destruct (truthy ok) eqn:Htruthy; cbn [negb]; [|right; left; eauto].
  destruct (py_get doc_info (u "data") (PDict ∅)) as [document|e] eqn:Hdata;
    cbn [mbind result_bind]; [|right; left; eauto].
  cbn [_is_user_author_or_collaborator negb].
  destruct (_format_notification lower repr w event document) as [text|e] eqn:Hfmt;
    cbn [mbind result_bind]; [|right; left; eauto].
  right. right. exists document_id, ok, document, text. auto 10.
Qed.

(** X12.  A message is sent only for an event with a truthy
    [documentId] whose document was fetched with an [ok] answer, it goes
    to the chat of the user, and its text is exactly what
    [_format_notification] returns for the event and the fetched
    document. *)
Theorem sent_text_is_formatter_output (uid : Z) (event : pyval)
    (api : YonoteAPI) (chat : Z) (text : pystr) :
  In (SendMessage chat text) (snd (_send_notification lower repr w uid event api)) →
  chat = uid
  ∧ ∃ document_id ok document,
      py_get event (u "documentId") PNone = Ok document_id
      ∧ truthy document_id = true
      ∧ py_get (respond w (api_token api) (u "documents.info")
                        (PDict (<[u "id" := document_id]> ∅)))
               (u "ok") PNone = Ok ok
      ∧ truthy ok = true
      ∧ py_get (respond w (api_token api) (u "documents.info")
                        (PDict (<[u "id" := document_id]> ∅)))
               (u "data") (PDict ∅) = Ok document
      ∧ _format_notification lower repr w event document = Ok text.
Proof.
  intros Hin.
  destruct (send_notification_shape uid event api)
    as [Heq | [(document_id & Heq)
              | (document_id & ok & document & text' & Hdoc & Hid & _ & Hok
                 & Htruthy & Hdata & Hfmt & Heq)]];
    rewrite Heq in Hin; cbn [snd] in Hin.
  - destruct Hin.
  - apply in_app_or in Hin as [Hin | [Hin | []]]; [|discriminate Hin].
    destruct (session api); [destruct Hin | destruct Hin as [Hin | []]; discriminate Hin].
  - apply in_app_or in Hin as [Hin | [Hin | []]].
    + apply in_app_or in Hin as [Hin | [Hin | []]]; [|discriminate Hin].
      destruct (session api);
        [destruct Hin | destruct Hin as [Hin | []]; discriminate Hin].
    + injection Hin as <- <-. split; [reflexivity|].
      exists document_id, ok, document. auto 10.
Qed.

Lemma send_notification_tidy uid event api :
  tidy uid api (fst (_send_notification lower repr w uid event api))
       (snd (_send_notification lower repr w uid event api)) 1.
Proof.
  unfold tidy.
  destruct (send_notification_shape uid event api)
    as [Heq | [(document_id & Heq)
              | (document_id & ok & document & text' & _ & _ & _ & _
                 & _ & _ & _ & Heq)]];
    rewrite Heq; cbn [fst snd api_token session];
    destruct (session api); cbn;
    repeat split; auto; try lia; repeat constructor.
Qed.

Lemma send_notifications_tidy uid events api :
  tidy uid api (fst (send_notifications lower repr w uid events api))
       (snd (send_notifications lower repr w uid events api)) (length events).
Proof.
  revert api. induction events as [|event events IH]; intros api.
  - cbn. unfold tidy. cbn. repeat split; auto; constructor.
  - cbn [send_notifications].
    pose proof (send_notification_tidy uid event api) as H1.
    destruct (_send_notification lower repr w uid event api) as [api' sent].
    pose proof (IH api') as H2.
    destruct (send_notifications lower repr w uid events api') as [api'' sent'].
    cbn [fst snd] in *. unfold tidy in *.
    destruct H1 as (Ht1 & Hs1 & Ho1 & Hc1 & Hn1 & Hw1).
    destruct H2 as (Ht2 & Hs2 & Ho2 & Hc2 & Hn2 & Hw2).
    rewrite Ht1 in Ho2.
    repeat split.
    + congruence.
    + auto.
    + apply Forall_app; auto.
    + apply Forall_app; auto.
    + rewrite filter_app, length_app. cbn [length]. lia.
    + apply Forall_app; auto.
Qed.

Lemma scan_length c items new :
  scan_new_events c items = Ok new → (length new ≤ length items)%nat.
Proof.
  revert new. induction items as [|v items IH]; intros new Hscan.
  - injection Hscan as <-. reflexivity.
  - cbn [scan_new_events] in Hscan.
    destruct (match c with
              | Some c0 =>
                  if truthy (PStr c0)
                  then i ← py_get v (u "id") PNone; Ok (py_eq_str i c0)
                  else Ok false
              | None => Ok false
              end) as [[|]|e]; cbn in Hscan.
    + injection Hscan as <-. cbn. lia.
    + destruct (scan_new_events c items) as [new'|e]; [|discriminate].
      cbn in Hscan. injection Hscan as <-. specialize (IH new' eq_refl).
      cbn. lia.
    + discriminate.
Qed.

Lemma filter_comment_events_length events kept :
  filter_comment_events lower events = Ok kept →
  (length kept ≤ length events)%nat.
Proof.
  revert kept. induction events as [|e events IH]; intros kept Hkept.
  - injection Hkept as <-. reflexivity.
  - cbn [filter_comment_events] in Hkept.
    destruct (_is_comment_event lower e) as [keep|x]; [|discriminate].
    cbn in Hkept.
    destruct (filter_comment_events lower events) as [kept'|x]; [|discriminate].
    cbn in Hkept. injection Hkept as <-. specialize (IH kept' eq_refl).
    destruct keep; cbn; lia.
Qed.

(** What [_process_events] leaves behind. *)
Lemma process_events_summary usr events api users :
  let o := _process_events lower repr w usr events api users in
  api_token (out_api o) = api_token api
  ∧ (session api = true → session (out_api o) = true)
  ∧ Forall (owned_by (user_id usr) (api_token api)) (out_effects o)
  ∧ Forall (fun e => is_close e = false) (out_effects o)
  ∧ (∀ items, py_iter events = Ok items →
       (length (filter is_send (out_effects o)) ≤ length items)%nat)
  ∧ (out_users o = users ∧ out_effects o = []
     ∨ ∃ event_id later,
         out_users o = update_last_event_id (user_id usr) event_id users
         ∧ out_effects o = SetLastEventId (user_id usr) event_id :: later
         ∧ Forall (fun e => match e with
                            | SetLastEventId _ _ => False
                            | _ => True
                            end) later).
Proof.
  cbv zeta. unfold _process_events.
  destruct (py_iter events) as [items|e] eqn:Hiter; cbn [mbind result_bind].
  2:{ cbn. repeat split; auto. intros items [=]. }
  destruct (scan_new_events (user_last_event_id usr) items)
    as [[|newest older]|e] eqn:Hscan.
  1,3: cbn; repeat split; auto; intros; lia.
  destruct (py_getitem newest (u "id")) as [i|e]; cbn [mbind result_bind].
  2:{ cbn. repeat split; auto. intros; lia. }
  destruct (sqlite_text i) as [event_id|e].
  2:{ cbn. repeat split; auto. intros; lia. }
  destruct (filter_comment_events lower (newest :: older)) as [commented|e] eqn:Hkept.
  - pose proof (send_notifications_tidy (user_id usr) commented api) as Htidy.
    destruct (send_notifications lower repr w (user_id usr) commented api)
      as [api' sent].
    cbn [fst snd] in Htidy. destruct Htidy as (Ht & Hs & Ho & Hc & Hn & Hw).
    cbn [out_api out_users out_effects].
    split; [exact Ht|]. split; [exact Hs|].
    split; [constructor; [reflexivity | exact Ho]|].
    split; [constructor; [reflexivity | exact Hc]|].
    split.
    + intros items' [= <-].
      apply filter_comment_events_length in Hkept.
      apply scan_length in Hscan.
      change ([SetLastEventId (user_id usr) event_id] ++ sent)
        with (SetLastEventId (user_id usr) event_id :: sent).
      rewrite filter_cons_False by (cbn; auto). cbn [length] in *. lia.
    + right. exists event_id, sent. auto.
  - cbn [out_api out_users out_effects].
    split; [reflexivity|]. split; [auto|].
    split; [repeat constructor|]. split; [repeat constructor|].
    split.
    + intros items' _. rewrite filter_cons_False by (cbn; auto). cbn. lia.
    + right. exists event_id, []. auto.
Qed.

Lemma get_events_new token :
  get_events w (new_YonoteAPI token) 20 0
  = (mk_YonoteAPI token true, [SessionOpen token; poll_request token],
     respond w token (u "events.list")
       (PDict (<[u "limit" := PInt 20]> (<[u "offset" := PInt 0]> ∅)))).
Proof. reflexivity. Qed.

Lemma close_open_session api :
  session api = true → close api = [SessionClose (api_token api)].
Proof. unfold close. intros ->. reflexivity. Qed.

(** What the body of the loop does for one user: the user is skipped
    for the flag, skipped for the mute, or polled. *)
Lemma check_user_cases usr st :
  let token := user_yonote_token usr in
  let answer := are_notifications_enabled (user_id usr) (clock w (user_id usr))
                                          (settings st) in
  (user_notifications_enabled usr = false
   ∧ check_user lower repr w usr st = st)
  ∨ (user_notifications_enabled usr = true ∧ fst answer = false
     ∧ check_user lower repr w usr st
       = mk_bot_state (db st) (snd answer) (trace st))
  ∨ (user_notifications_enabled usr = true ∧ fst answer = true
     ∧ ∃ users' rest,
         check_user lower repr w usr st
         = mk_bot_state users' (snd answer)
             (trace st ++ SessionOpen token :: poll_request token :: rest)
         ∧ Forall (owned_by (user_id usr) token) rest
         ∧ (users' = db st
            ∨ ∃ e, users' = update_last_event_id (user_id usr) e (db st))).
Proof.
  cbv zeta. unfold check_user.
  destruct (user_notifications_enabled usr) eqn:Hflag; cbn [negb].
  2:{ left. split; reflexivity. }
  right.
  destruct (are_notifications_enabled (user_id usr) (clock w (user_id usr))
                                      (settings st)) as [[|] settings'] eqn:Hans;
    cbn [negb fst snd].
  2:{ left. repeat split; reflexivity. }
  right. split; [reflexivity|]. split; [reflexivity|].
  rewrite get_events_new.
  set (token := user_yonote_token usr).
  set (events := respond w token (u "events.list") _).
  destruct (if negb (truthy events) then Ok false
            else ok ← py_get events (u "ok") PNone;
                 if negb (truthy ok) then Ok false
                 else data ← py_get events (u "data") PNone; Ok (truthy data))
    as [[|]|e].
  - destruct (py_getitem events (u "data")) as [data|e].
    + pose proof (process_events_summary usr data (mk_YonoteAPI token true) (db st))
        as (Ht & Hs & Ho & _ & _ & Hdb).
      cbn [api_token session] in Ht, Hs, Ho.
      set (o := _process_events lower repr w usr data
                  (mk_YonoteAPI token true) (db st)) in *.
      assert (Hdb' : out_users o = db st
                     ∨ ∃ e, out_users o = update_last_event_id (user_id usr) e (db st)).
      { destruct Hdb as [[-> _] | (e & later & -> & _)];
          [left; reflexivity | right; exists e; reflexivity]. }
      destruct (out_result o).
      * exists (out_users o), (out_effects o ++ close (out_api o)).
        split; [reflexivity|]. split; [|exact Hdb'].
        rewrite close_open_session by (apply Hs; reflexivity). rewrite Ht.
        apply Forall_app_2; [exact Ho|].
        constructor; [reflexivity | constructor].
      * exists (out_users o), (out_effects o).
        split; [reflexivity|]. split; [exact Ho | exact Hdb'].
    + exists (db st), []. split; [reflexivity|].
      split; [constructor | left; reflexivity].
  - exists (db st), (close (mk_YonoteAPI token true)).
    split; [reflexivity|].
    split; [repeat constructor | left; reflexivity].
  - exists (db st), []. split; [reflexivity|].
    split; [constructor | left; reflexivity].
Qed.

(** ** The whole cycle *)

Lemma answer_frame uid now ms v :
  v ≠ uid →
  get_disabled_until v (snd (are_notifications_enabled uid now ms))
  = get_disabled_until v ms.
Proof.
  intros Hne. unfold get_disabled_until at 1.
  destruct (are_notifications_enabled_cases uid now ms)
    as [[_ [[-> _] | ->]] | [_ [Hrows (until & _ & _ & Hcache)]]].
  - reflexivity.
  - unfold enable_notifications. cbn [_disabled_until notification_settings].
    rewrite !lookup_delete_ne by congruence. reflexivity.
  - rewrite Hrows, Hcache, lookup_insert_ne by congruence. reflexivity.
Qed.

Lemma muted_answer_keeps_windows uid now ms v :
  fst (are_notifications_enabled uid now ms) = false →
  get_disabled_until v (snd (are_notifications_enabled uid now ms))
  = get_disabled_until v ms.
Proof.
  intros Hfalse. unfold get_disabled_until at 1.
  destruct (are_notifications_enabled_cases uid now ms)
    as [[Htrue _] | [_ [Hrows (until & Hget & _ & Hcache)]]]; [congruence|].
  rewrite Hrows, Hcache. destruct (decide (v = uid)) as [->|Hne].
  - rewrite lookup_insert_eq. symmetry. exact Hget.
  - rewrite lookup_insert_ne by congruence. reflexivity.
Qed.

Lemma answer_by_window uid now ms ms' :
  get_disabled_until uid ms' = get_disabled_until uid ms →
  fst (are_notifications_enabled uid now ms')
  = fst (are_notifications_enabled uid now ms).
Proof.
  intros Hsame. rewrite !are_notifications_enabled_answer, Hsame. reflexivity.
Qed.

Lemma run_trace l st :
  ∃ added,
    trace (run lower repr w l st) = trace st ++ added
    ∧ Forall (fun e => ∃ usr, In usr l
                              ∧ user_notifications_enabled usr = true
                              ∧ owned_by (user_id usr) (user_yonote_token usr) e)
             added.
Proof.
  revert st. induction l as [|usr l IH]; intros st.
  - exists []. rewrite app_nil_r. split; [reflexivity | constructor].
  - cbn [run fold_left]. fold (run lower repr w l (check_user lower repr w usr st)).
    destruct (IH (check_user lower repr w usr st)) as (added & Htrace & Hown).
    assert (Hown' : Forall (fun e => ∃ x, In x (usr :: l)
                              ∧ user_notifications_enabled x = true
                              ∧ owned_by (user_id x) (user_yonote_token x) e)
                           added).
    { eapply Forall_impl; [exact Hown|].
      intros e (x & Hin & Hflag & Hx). exists x.
      split; [right; exact Hin | split; assumption]. }
    destruct (check_user_cases usr st)
      as [[_ Heq] | [(_ & _ & Heq) | (Hflag & _ & users' & rest & Heq & Hrest & _)]];
      rewrite Heq in Htrace |- *; cbn [trace] in Htrace.
    + exists added. split; [exact Htrace | exact Hown'].
    + exists added. split; [exact Htrace | exact Hown'].
    + exists ((SessionOpen (user_yonote_token usr)
               :: poll_request (user_yonote_token usr) :: rest) ++ added).
      split; [rewrite Htrace, <- app_assoc; reflexivity|].
      apply Forall_app_2; [|exact Hown'].
      assert (Hmine : ∀ e, owned_by (user_id usr) (user_yonote_token usr) e →
                ∃ x, In x (usr :: l) ∧ user_notifications_enabled x = true
                     ∧ owned_by (user_id x) (user_yonote_token x) e).
      { intros e He. exists usr. split; [left; reflexivity | split; assumption]. }
      constructor; [apply Hmine; reflexivity|].
      constructor; [apply Hmine; reflexivity|].
      eapply Forall_impl; [exact Hrest | exact Hmine].
Qed.

Lemma rows_kept_refl users : rows_kept users users.
Proof.
  intros v. destruct (users !! v); [repeat split | exact I].
Qed.

Lemma rows_kept_update uid e users users'' :
  rows_kept (update_last_event_id uid e users) users'' →
  rows_kept users users''.
Proof.
  intros Hkept v. specialize (Hkept v). unfold update_last_event_id in Hkept.
  rewrite lookup_alter in Hkept. case_decide as Huid; [subst v|exact Hkept].
  destruct (users !! uid) as [row|]; cbn in Hkept; [|exact Hkept].
  destruct (users'' !! uid) as [row''|]; [|exact Hkept].
  exact Hkept.
Qed.

Lemma run_rows_kept l st : rows_kept (db st) (db (run lower repr w l st)).
Proof.
  revert st. induction l as [|usr l IH]; intros st; [apply rows_kept_refl|].
  cbn [run fold_left]. fold (run lower repr w l (check_user lower repr w usr st)).
  specialize (IH (check_user lower repr w usr st)).
  destruct (check_user_cases usr st)
    as [[_ Heq] | [(_ & _ & Heq) | (_ & _ & users' & rest & Heq & _ & Hdb)]];
    rewrite Heq in IH |- *; cbn [db] in IH; [exact IH | exact IH |].
  destruct Hdb as [-> | [e ->]]; [exact IH|].
  eapply rows_kept_update. exact IH.
Qed.

Lemma run_idle l st :
  (∀ usr, In usr l →
     user_notifications_enabled usr = false
     ∨ fst (are_notifications_enabled (user_id usr) (clock w (user_id usr))
                                      (settings st)) = false) →
  trace (run lower repr w l st) = trace st
  ∧ db (run lower repr w l st) = db st
  ∧ notification_settings (settings (run lower repr w l st))
    = notification_settings (settings st).
Proof.
  revert st. induction l as [|usr l IH]; intros st Hidle; [auto|].
  cbn [run fold_left]. fold (run lower repr w l (check_user lower repr w usr st)).
  destruct (check_user_cases usr st)
    as [[_ Heq] | [(_ & Hmuted & Heq) | (Hflag & Hans & _)]].
  - rewrite Heq. apply IH. intros x Hx. apply Hidle. right. exact Hx.
  - rewrite Heq.
    destruct (IH (mk_bot_state (db st)
                    (snd (are_notifications_enabled (user_id usr)
                            (clock w (user_id usr)) (settings st)))
                    (trace st))) as (Ht & Hd & Hn).
    + intros x Hx. cbn [settings].
      destruct (Hidle x (or_intror Hx)) as [Hx' | Hx']; [left; exact Hx'|].
      right. rewrite <- Hx'. apply answer_by_window.
      apply muted_answer_keeps_windows. exact Hmuted.
    + cbn [trace db settings] in Ht, Hd, Hn. rewrite Ht, Hd, Hn.
      split; [reflexivity|]. split; [reflexivity|].
      destruct (are_notifications_enabled_cases (user_id usr)
                  (clock w (user_id usr)) (settings st))
        as [[Htrue _] | [_ [Hrows _]]]; [congruence | exact Hrows].
  - destruct (Hidle usr (or_introl eq_refl)); congruence.
Qed.

Lemma run_polls l st usr :
  NoDup (map user_id l) →
  In usr l →
  user_notifications_enabled usr = true →
  fst (are_notifications_enabled (user_id usr) (clock w (user_id usr))
                                 (settings st)) = true →
  ∃ before after,
    trace (run lower repr w l st)
    = before ++ SessionOpen (user_yonote_token usr)
             :: poll_request (user_yonote_token usr) :: after.
Proof.
  revert st. induction l as [|x l IH]; intros st Hnodup Hin Hflag Hans;
    [destruct Hin|].
  cbn [run fold_left]. fold (run lower repr w l (check_user lower repr w x st)).
  cbn [map] in Hnodup. apply NoDup_cons in Hnodup as [Hfresh Hnodup].
  destruct Hin as [-> | Hin].
  - destruct (run_trace l (check_user lower repr w usr st)) as (added & -> & _).
    destruct (check_user_cases usr st)
      as [[Hoff _] | [(_ & Hmuted & _) | (_ & _ & users' & rest & -> & _)]];
      [congruence | congruence |].
    cbn [trace]. exists (trace st), (rest ++ added).
    rewrite <- app_assoc. reflexivity.
  - assert (Hne : user_id usr ≠ user_id x).
    { intros Heq. apply Hfresh. rewrite <- Heq.
      apply list_elem_of_In, in_map, Hin. }
    apply IH; [exact Hnodup | exact Hin | exact Hflag |].
    rewrite <- Hans. apply answer_by_window.
    destruct (check_user_cases x st)
      as [[_ ->] | [(_ & _ & ->) | (_ & _ & users' & rest & -> & _)]];
      cbn [settings]; [reflexivity | |]; apply answer_frame; exact Hne.
Qed.

Lemma get_all_users_row users usr :
  In usr (get_all_users users) →
  ∃ row, users !! user_id usr = Some row
         ∧ user_yonote_token usr = yonote_token row
         ∧ user_notifications_enabled usr = notifications_enabled row.
Proof.
  unfold get_all_users. rewrite in_map_iff.
  intros ([uid row] & <- & Hin). cbn.
  apply list_elem_of_In, elem_of_map_to_list in Hin.
  exists row. split; [exact Hin | split; reflexivity].
Qed.

Lemma get_all_users_in users uid row :
  users !! uid = Some row →
  In (mk_user uid (yonote_token row) (notifications_enabled row)
              (last_event_id row))
     (get_all_users users).
Proof.
  intros Hrow. unfold get_all_users. apply in_map_iff.
  exists (uid, row). split; [reflexivity|].
  apply list_elem_of_In, elem_of_map_to_list. exact Hrow.
Qed.

Lemma get_all_users_nodup users : NoDup (map user_id (get_all_users users)).
Proof.
  unfold get_all_users. rewrite map_map. cbn [user_id].
  apply NoDup_fst_map_to_list.
Qed.

(** X13.  Whatever the remote API answers, everything a cycle does to
    the outside world is done for a registered user whose flag is on:
    each request and each session carries the stored token of such a
    user, and each message and each cursor write is addressed to such a
    user.  The log only grows. *)
Theorem cycle_acts_for_registered_users (st : bot_state) :
  ∃ added,
    trace (check_notifications lower repr w st) = trace st ++ added
    ∧ Forall (fun e => ∃ uid row,
                db st !! uid = Some row
                ∧ notifications_enabled row = true
                ∧ owned_by uid (yonote_token row) e)
             added.
Proof.
  unfold check_notifications.
  destruct (run_trace (get_all_users (db st)) st) as (added & Htrace & Hown).
  exists added. split; [exact Htrace|].
  eapply Forall_impl; [exact Hown|].
  intros e (usr & Hin & Hflag & He).
  destruct (get_all_users_row _ _ Hin) as (row & Hrow & Htoken & Hflag').
  exists (user_id usr), row. split; [exact Hrow|].
  split; [congruence|]. rewrite <- Htoken. exact He.
Qed.

(** X14.  A cycle never registers or removes a user and never changes a
    token, an enable flag or a creation time: the table after the cycle
    has the same ids, and each row differs from the old one in its cursor
    at most. *)
Theorem cycle_keeps_rows (st : bot_state) :
  rows_kept (db st) (db (check_notifications lower repr w st)).
Proof. apply run_rows_kept. Qed.

(** X15.  A cycle in which every registered user is switched off or
    muted makes no request, sends nothing and writes neither table. *)
Theorem idle_cycle_is_silent (st : bot_state) :
  (∀ uid row, db st !! uid = Some row →
     notifications_enabled row = false
     ∨ fst (are_notifications_enabled uid (clock w uid) (settings st)) = false) →
  let st' := check_notifications lower repr w st in
  trace st' = trace st
  ∧ db st' = db st
  ∧ notification_settings (settings st') = notification_settings (settings st).
Proof.
  intros Hidle. cbv zeta. apply run_idle.
  intros usr Hin.
  destruct (get_all_users_row _ _ Hin) as (row & Hrow & _ & Hflag).
  rewrite Hflag. exact (Hidle _ _ Hrow).
Qed.

(** X16.  Each registered user whose flag is on and who is not muted
    when the cycle starts is polled in that cycle, whatever the answers
    for the other users are and whatever exceptions their processing
    raises: the log holds the opening of a session and the request for
    the newest page with the token of that user. *)
Theorem every_active_user_is_polled (st : bot_state) (uid : Z) (row : user_row) :
  db st !! uid = Some row →
  notifications_enabled row = true →
  fst (are_notifications_enabled uid (clock w uid) (settings st)) = true →
  ∃ before after,
    trace (check_notifications lower repr w st)
    = before ++ SessionOpen (yonote_token row)
             :: poll_request (yonote_token row) :: after.
Proof.
  intros Hrow Hflag Hans. unfold check_notifications.
  apply (run_polls (get_all_users (db st)) st
           (mk_user uid (yonote_token row) (notifications_enabled row)
                    (last_event_id row))).
  - apply get_all_users_nodup.
  - apply get_all_users_in. exact Hrow.
  - exact Hflag.
  - exact Hans.
Qed.

Lemma dict_with_key_is_truthy (d : dict) key v :
  d !! key = Some v → truthy (PDict d) = true.
Proof.
  intros Hkey. cbn [truthy]. rewrite bool_decide_eq_false_2; [reflexivity|].
  intros ->. rewrite lookup_empty in Hkey. discriminate.
Qed.

(** X17.  For a polled user whose page was fetched, the session of the
    client is closed exactly when [_process_events] returns normally: the
    log of the user is the opening, the request, the effects of
    [_process_events], none of which closes a session, and then the
    closing if no exception was raised, and nothing if one was.  The
    table is left as [_process_events] left it in both cases. *)
Theorem session_closed_iff_no_exception (usr : user) (st : bot_state)
    (d : dict) (ok data : pyval) :
  user_notifications_enabled usr = true →
  fst (are_notifications_enabled (user_id usr) (clock w (user_id usr))
                                 (settings st)) = true →
  respond w (user_yonote_token usr) (u "events.list")
          (PDict (<[u "limit" := PInt 20]> (<[u "offset" := PInt 0]> ∅)))
  = PDict d →
  d !! u "ok" = Some ok → truthy ok = true →
  d !! u "data" = Some data → truthy data = true →
  let token := user_yonote_token usr in
  let o := _process_events lower repr w usr data (mk_YonoteAPI token true)
                           (db st) in
  db (check_user lower repr w usr st) = out_users o
  ∧ trace (check_user lower repr w usr st)
    = trace st ++ [SessionOpen token; poll_request token] ++ out_effects o
      ++ match out_result o with
         | Ok _ => [SessionClose token]
         | Raise _ => []
         end
  ∧ Forall (fun e => is_close e = false) (out_effects o).
Proof.
  intros Hflag Hans Hresp Hok Htruthy Hdata Hpage. cbv zeta.
  pose proof (process_events_summary usr data
                (mk_YonoteAPI (user_yonote_token usr) true) (db st))
    as (Ht & Hs & _ & Hnoclose & _).
  cbn [api_token session] in Ht, Hs.
  unfold check_user. rewrite Hflag. cbn [negb].
  destruct (are_notifications_enabled (user_id usr) (clock w (user_id usr))
                                      (settings st)) as [answer settings'].
  cbn [fst] in Hans. subst answer. cbn [negb].
  rewrite get_events_new, Hresp.
  rewrite (dict_with_key_is_truthy d _ _ Hok).
  cbn [negb py_get py_getitem mbind result_bind].
  rewrite Hok, Hdata. cbn [default from_option id].
  rewrite Htruthy, Hpage. cbn [negb].
  set (o := _process_events lower repr w usr data
              (mk_YonoteAPI (user_yonote_token usr) true) (db st)) in *.
  destruct (out_result o); cbn [db trace].
  - split; [reflexivity|]. split; [|exact Hnoclose].
    rewrite close_open_session by (apply Hs; reflexivity). rewrite Ht.
    reflexivity.
  - split; [reflexivity|]. split; [|exact Hnoclose].
    rewrite app_nil_r. reflexivity.
Qed.

(** X18.  For a polled user whose fetch failed ([None]), or was answered
    without a truthy [ok], or with no event, the tables are untouched,
    nothing is sent, and the session is closed right after the
    request. *)
Theorem failed_fetch_changes_nothing (usr : user) (st : bot_state) :
  user_notifications_enabled usr = true →
  fst (are_notifications_enabled (user_id usr) (clock w (user_id usr))
                                 (settings st)) = true →
  let token := user_yonote_token usr in
  let events := respond w token (u "events.list")
                  (PDict (<[u "limit" := PInt 20]> (<[u "offset" := PInt 0]> ∅))) in
  (events = PNone
   ∨ ∃ d, events = PDict d
          ∧ (truthy (default PNone (d !! u "ok")) = false
             ∨ truthy (default PNone (d !! u "data")) = false)) →
  db (check_user lower repr w usr st) = db st
  ∧ trace (check_user lower repr w usr st)
    = trace st ++ [SessionOpen token; poll_request token; SessionClose token].
Proof.
  intros Hflag Hans. cbv zeta. intros Hfail.
  unfold check_user. rewrite Hflag. cbn [negb].
  destruct (are_notifications_enabled (user_id usr) (clock w (user_id usr))
                                      (settings st)) as [answer settings'].
  cbn [fst] in Hans. subst answer. cbn [negb].
  rewrite get_events_new.
  destruct Hfail as [-> | (d & -> & Hbad)].
  - cbn [truthy negb db trace close session api_token]. auto.
  - destruct (truthy (PDict d)); cbn [negb]; [|cbn; auto].
    cbn [py_get mbind result_bind].
    destruct (truthy (default PNone (d !! u "ok"))); cbn [negb]; [|cbn; auto].
    destruct Hbad as [Hbad | Hbad]; [discriminate|].
    rewrite Hbad. cbn. auto.
Qed.

End Cycle.

(** ** The cycle at concrete inputs *)

(** X12 at an event of the page of user 7. *)
Lemma sent_text_is_formatter_output_witness :
  let event := comment_event [(u "id", PStr (u "e1"))] in
  let api := new_YonoteAPI (Some (u "token")) in
  let w := world_with_page [] in
  let text := match _format_notification str_lower repr_stub w event
                      (PDict (mk_event [(u "id", PStr (u "d1"));
                                        (u "title", PStr (u "Page"))])) with
              | Ok message => message
              | Raise _ => []
              end in
  In (SendMessage 7 text)
     (snd (_send_notification str_lower repr_stub w 7 event api))
  ∧ (7 = 7
     ∧ ∃ document_id ok document,
         py_get event (u "documentId") PNone = Ok document_id
         ∧ truthy document_id = true
         ∧ py_get (respond w (api_token api) (u "documents.info")
                           (PDict (<[u "id" := document_id]> ∅)))
                  (u "ok") PNone = Ok ok
         ∧ truthy ok = true
         ∧ py_get (respond w (api_token api) (u "documents.info")
                           (PDict (<[u "id" := document_id]> ∅)))
                  (u "data") (PDict ∅) = Ok document
         ∧ _format_notification str_lower repr_stub w event document = Ok text).
Proof.
  cbv zeta.
  assert (Hin : In (SendMessage 7
             match _format_notification str_lower repr_stub (world_with_page [])
                     (comment_event [(u "id", PStr (u "e1"))])
                     (PDict (mk_event [(u "id", PStr (u "d1"));
                                       (u "title", PStr (u "Page"))])) with
             | Ok message => message
             | Raise _ => []
             end)
            (snd (_send_notification str_lower repr_stub (world_with_page []) 7
                    (comment_event [(u "id", PStr (u "e1"))])
                    (new_YonoteAPI (Some (u "token"))))))
    by (vm_compute; right; right; left; reflexivity).
  split; [exact Hin|].
  exact (sent_text_is_formatter_output str_lower repr_stub (world_with_page [])
           7 _ _ 7 _ Hin).
Defined.

Lemma muted_user_is_idle uid row :
  db muted_user !! uid = Some row →
  notifications_enabled row = false
  ∨ fst (are_notifications_enabled uid (clock quiet_world uid)
                                   (settings muted_user)) = false.
Proof.
  intros Hrow. cbn [muted_user db] in Hrow.
  apply lookup_singleton_Some in Hrow as [<- <-].
  right. vm_compute. reflexivity.
Qed.

(** X15 at a registry whose only user is muted. *)
Lemma idle_cycle_is_silent_witness :
  (∀ uid row, db muted_user !! uid = Some row →
     notifications_enabled row = false
     ∨ fst (are_notifications_enabled uid (clock quiet_world uid)
                                      (settings muted_user)) = false)
  ∧ let st' := check_notifications str_lower repr_stub quiet_world muted_user in
    trace st' = trace muted_user
    ∧ db st' = db muted_user
    ∧ notification_settings (settings st')
      = notification_settings (settings muted_user).
Proof.
  split; [exact muted_user_is_idle|].
  exact (idle_cycle_is_silent str_lower repr_stub quiet_world muted_user
           muted_user_is_idle).
Defined.

(** X16 at user 7, with a remote API that fails every request. *)
Lemma every_active_user_is_polled_witness :
  db one_user !! 7 = Some row7
  ∧ notifications_enabled row7 = true
  ∧ fst (are_notifications_enabled 7 (clock quiet_world 7) (settings one_user))
    = true
  ∧ ∃ before after,
      trace (check_notifications str_lower repr_stub quiet_world one_user)
      = before ++ SessionOpen (yonote_token row7)
               :: poll_request (yonote_token row7) :: after.
Proof.
  split; [vm_compute; reflexivity|]. split; [reflexivity|].
  split; [vm_compute; reflexivity|].
  apply (every_active_user_is_polled str_lower repr_stub quiet_world one_user
           7 row7); vm_compute; reflexivity.
Defined.

(** X17 at user 7 and a page of one comment event. *)
Lemma session_closed_iff_no_exception_witness :
  let page := [comment_event [(u "id", PStr (u "e1"))]] in
  let w := world_with_page page in
  let token := user_yonote_token user7 in
  let o := _process_events str_lower repr_stub w user7 (PList page)
                           (mk_YonoteAPI token true) (db one_user) in
  db (check_user str_lower repr_stub w user7 one_user) = out_users o
  ∧ trace (check_user str_lower repr_stub w user7 one_user)
    = trace one_user ++ [SessionOpen token; poll_request token] ++ out_effects o
      ++ match out_result o with
         | Ok _ => [SessionClose token]
         | Raise _ => []
         end
  ∧ Forall (fun e => is_close e = false) (out_effects o).
Proof.
  cbv zeta.
  apply (session_closed_iff_no_exception str_lower repr_stub
           (world_with_page [comment_event [(u "id", PStr (u "e1"))]])
           user7 one_user
           (page_answer [comment_event [(u "id", PStr (u "e1"))]])
           (PBool true) (PList [comment_event [(u "id", PStr (u "e1"))]]));
    vm_compute; reflexivity.
Defined.

(** X18 at user 7, with a remote API that fails every request. *)
Lemma failed_fetch_changes_nothing_witness :
  let token := user_yonote_token user7 in
  db (check_user str_lower repr_stub quiet_world user7 one_user) = db one_user
  ∧ trace (check_user str_lower repr_stub quiet_world user7 one_user)
    = trace one_user
      ++ [SessionOpen token; poll_request token; SessionClose token].
Proof.
  cbv zeta.
  apply (failed_fetch_changes_nothing str_lower repr_stub quiet_world
           user7 one_user).
  - reflexivity.
  - vm_compute; reflexivity.
  - left. reflexivity.
Defined.

(** * Further properties of the formatter *)

Section FormatterShape.

Variable lower : pystr -> pystr.
Variable repr : pyval -> pystr.
Variable w : world.

Lemma notification_head_is_message_head event document head :
  notification_head lower repr w event document = Ok head →
  ∃ t a act url, head = message_head t a act (strftime_now w) url.
Proof.
  unfold notification_head.
  destruct (py_get document (u "title") (PStr (u "Без названия")));
    [|discriminate]. cbn [mbind result_bind].
  destruct (py_get document (u "id") (PStr [])); [|discriminate].
  cbn [mbind result_bind].
  destruct (py_get event (u "actor") (PDict ∅)) as [actor|]; [|discriminate].
  cbn [mbind result_bind].
  destruct (py_get actor (u "name") (PStr (u "Неизвестный пользователь")));
    [|discriminate]. cbn [mbind result_bind].
  destruct (py_get event (u "name") (PStr [])) as [name|]; [|discriminate].
  cbn [mbind result_bind].
  destruct (py_lower lower name); [|discriminate]. cbn [mbind result_bind].
  intros [= <-]. eexists _, _, _, _. reflexivity.
Qed.

(** X19.  The message the user reads is the message head without its
    first and its last line break, followed, when a comment text is
    rendered, by an empty line and the comment block.  The final [strip]
    removes those two line breaks and nothing else: the message begins
    with the document line, and white space inside the title, the actor
    name or the comment text is kept. *)
Theorem message_is_head_and_comment (event document : pyval) (head : pystr) :
  notification_head lower repr w event document = Ok head →
  ∃ core,
    head = [10%N] ++ core ++ [10%N]
    ∧ starts_with (u "📄 <b>") core = true
    ∧ ∀ message,
        _format_notification lower repr w event document = Ok message →
        message = core
        ∨ ∃ text, message = core ++ [10%N; 10%N] ++ u "💬 <i>" ++ text ++ u "</i>".
Proof.
  intros Hhead.
  destruct (notification_head_is_message_head _ _ _ Hhead)
    as (t & a & act & url & ->).
  exists (message_core t a act (strftime_now w) url).
  split; [apply message_head_core|].
  split; [unfold message_core; apply starts_with_app|].
  intros message. unfold _format_notification. rewrite Hhead.
  cbn [mbind result_bind].
  destruct (message_core_ends t a act (strftime_now w) url) as [mid Hcore].
  assert (Hplain : strip (message_head t a act (strftime_now w) url)
                   = message_core t a act (strftime_now w) url).
  { rewrite message_head_core, Hcore.
    apply (strip_between_breaks 128196 62 mid); reflexivity. }
  assert (Hcomment : ∀ text,
    strip (message_head t a act (strftime_now w) url ++ [10%N] ++ u "💬 <i>"
           ++ text ++ u "</i>")
    = message_core t a act (strftime_now w) url ++ [10%N; 10%N] ++ u "💬 <i>"
      ++ text ++ u "</i>").
  { intros text. rewrite message_head_core, Hcore.
    replace (u "</i>") with ([60; 47; 105]%N ++ [62%N])
      by (vm_compute; reflexivity).
    transitivity (strip ([10%N] ++ 128196%N
                   :: (mid ++ [62%N] ++ [10%N; 10%N] ++ u "💬 <i>" ++ text
                       ++ [60; 47; 105]%N) ++ [62%N])).
    - f_equal. rewrite <- !app_assoc. cbn [app]. rewrite <- ?app_assoc.
      cbn [app]. reflexivity.
    - rewrite (proj2 (strip_between_breaks 128196 62 _ eq_refl eq_refl)).
      rewrite <- !app_assoc. cbn [app]. rewrite <- ?app_assoc.
      cbn [app]. reflexivity. }
  destruct (py_get event (u "data") (PDict ∅)) as [comment_data|];
    [|discriminate]. cbn [mbind result_bind].
  destruct comment_data as [| | | | |d];
    try (cbn [mbind result_bind]; rewrite Hplain; intros [= <-]; left; reflexivity).
  destruct (truthy (default PNone (d !! u "data")));
    [|cbn [mbind result_bind]; rewrite Hplain; intros [= <-]; left; reflexivity].
  destruct (comment_text_of (default PNone (d !! u "data"))) as [text|];
    [|discriminate].
  cbn [mbind result_bind]. rewrite Hcomment. intros [= <-].
  right. eexists. reflexivity.
Qed.

End FormatterShape.

(** X19 at the event with the long comment. *)
Lemma message_is_head_and_comment_witness :
  let head := match notification_head str_lower repr_stub quiet_world
                      (PDict long_event) (PDict ∅) with
              | Ok head => head
              | Raise _ => []
              end in
  notification_head str_lower repr_stub quiet_world (PDict long_event) (PDict ∅)
  = Ok head
  ∧ ∃ core,
      head = [10%N] ++ core ++ [10%N]
      ∧ starts_with (u "📄 <b>") core = true
      ∧ ∀ message,
          _format_notification str_lower repr_stub quiet_world (PDict long_event)
                               (PDict ∅) = Ok message →
          message = core
          ∨ ∃ text, message = core ++ [10%N; 10%N] ++ u "💬 <i>" ++ text
                              ++ u "</i>".
Proof.
  cbv zeta.
  assert (Hhead :
    notification_head str_lower repr_stub quiet_world (PDict long_event) (PDict ∅)
    = Ok match notification_head str_lower repr_stub quiet_world
                 (PDict long_event) (PDict ∅) with
         | Ok head => head
         | Raise _ => []
         end) by (vm_compute; reflexivity).
  split; [exact Hhead|].
  exact (message_is_head_and_comment str_lower repr_stub quiet_world _ _ _ Hhead).
Defined.

(** * Further properties of the message handlers *)

Lemma get_auth_info_new w token :
  get_auth_info w (new_YonoteAPI token)
  = (mk_YonoteAPI token true,
     [SessionOpen token; Request token (u "auth.info") (PDict ∅)],
     respond w token (u "auth.info") (PDict ∅)).
Proof. reflexivity. Qed.

(** The ways [_handle_token_input] ends. *)
Lemma handle_token_input_cases tg w now upd st :
  let token := Some (strip (message_text upd)) in
  let chat := effective_chat upd in
  let answer := respond w token (u "auth.info") (PDict ∅) in
  let asked := chat_log st ++ [DeleteMessage chat (message_id upd)]
               ++ [Remote (SessionOpen token);
                   Remote (Request token (u "auth.info") (PDict ∅))] in
  (can_delete tg chat (message_id upd) = false
   ∧ _handle_token_input tg w now upd st
     = (mk_chat_state (registry st) (waiting_for_token st)
          (chat_log st ++ [DeleteMessage chat (message_id upd)]),
        Failed TelegramError))
  ∨ (can_delete tg chat (message_id upd) = true
     ∧ ((∃ e, _handle_token_input tg w now upd st
              = (mk_chat_state (registry st) (waiting_for_token st) asked,
                 Failed (PythonError e)))
        ∨ (∃ told,
             _handle_token_input tg w now upd st
             = (mk_chat_state (registry st) (waiting_for_token st)
                  (asked ++ [SendText chat invalid_token_text false] ++ told),
                if can_send tg chat invalid_token_text then Done
                else Failed TelegramError)
             ∧ told = (if can_send tg chat invalid_token_text
                       then [Remote (SessionClose token)] else []))
        ∨ (∃ d ok told,
             answer = PDict d ∧ d !! u "ok" = Some ok ∧ truthy ok = true
             ∧ _handle_token_input tg w now upd st
               = (mk_chat_state
                    (save_user_token (effective_user upd)
                       (strip (message_text upd)) now (registry st))
                    (Some false)
                    (asked ++ delete_recent chat (message_id upd)
                     ++ [SendText chat connected_text true] ++ told),
                  if can_send tg chat connected_text then Done
                  else Failed TelegramError)
             ∧ told = (if can_send tg chat connected_text
                       then [Remote (SessionClose token)] else [])))).
Proof.
  cbv zeta. unfold _handle_token_input.
  destruct (can_delete tg (effective_chat upd) (message_id upd));
    cbn [negb]; [right; split; [reflexivity|] | left; split; reflexivity].
  rewrite get_auth_info_new.
  set (token := Some (strip (message_text upd))).
  set (answer := respond w token (u "auth.info") (PDict ∅)).
  cbn [map close session api_token].
  destruct (truthy answer) eqn:Htruthy.
  2:{ right. left.
      destruct (can_send tg (effective_chat upd) invalid_token_text);
        cbn [negb]; eexists; (split; [|reflexivity]);
        rewrite <- !app_assoc; reflexivity. }
  destruct answer as [| | | | |d] eqn:Hanswer;
    try (left; exists AttributeError; cbn [py_get mbind result_bind];
         rewrite <- !app_assoc; reflexivity).
  cbn [py_get mbind result_bind].
  destruct (truthy (default PNone (d !! u "ok"))) eqn:Hok.
  - right. right.
    destruct (d !! u "ok") as [ok|] eqn:Hkey; [|discriminate Hok].
    cbn [default from_option id] in Hok.
    exists d, ok.
    destruct (can_send tg (effective_chat upd) connected_text);
      cbn [negb]; eexists; (split; [reflexivity|]); (split; [exact Hkey|]);
      (split; [exact Hok|]); (split; [|reflexivity]);
      rewrite <- !app_assoc; reflexivity.
  - right. left.
    destruct (can_send tg (effective_chat upd) invalid_token_text);
      cbn [negb]; eexists; (split; [|reflexivity]);
      rewrite <- !app_assoc; reflexivity.
Qed.

(** X20.  A text message changes the registry and the waiting flag
    exactly when its token is confirmed: the user was waiting for a
    token, the platform deleted the token message and the remote API
    answered [auth.info] for the stripped text with a truthy [ok].  Then
    the registry is the one [save_user_token] gives for the stripped text
    and the flag is False, also when the confirmation cannot be sent
    afterwards.  In every other case, failures and exceptions included,
    both are as they were. *)
Theorem registry_changes_iff_token_confirmed (tg : telegram)
    (w : world) (now : Z) (upd : update) (st : chat_state) :
  let st' := fst (handle_message tg w now upd st) in
  let token := strip (message_text upd) in
  (token_confirmed tg w upd st →
   registry st' = save_user_token (effective_user upd) token now (registry st)
   ∧ waiting_for_token st' = Some false)
  ∧ (¬ token_confirmed tg w upd st →
     registry st' = registry st
     ∧ waiting_for_token st' = waiting_for_token st).
Proof.
  cbv zeta. split.
  - intros (Hwait & Hdel & d & ok & Hresp & Hok & Htruthy).
    unfold handle_message. rewrite Hwait. unfold _handle_token_input.
    rewrite Hdel. cbn [negb]. rewrite get_auth_info_new, Hresp.
    rewrite (dict_with_key_is_truthy d _ _ Hok).
    cbn [py_get mbind result_bind]. rewrite Hok.
    cbn [default from_option id]. rewrite Htruthy.
    destruct (can_send tg (effective_chat upd) connected_text);
      cbn [negb fst registry waiting_for_token]; split; reflexivity.
  - intros Hnot. unfold handle_message.
    destruct (waiting_for_token st) as [[|]|] eqn:Hwait;
      [|cbn; split; reflexivity | cbn; split; reflexivity].
    destruct (handle_token_input_cases tg w now upd st)
      as [[_ ->] | [Hdel [[e ->] | [(told & -> & _)
                                   | (d & ok & told & Hans & Hok & Htruthy & _)]]]];
      cbn [fst registry waiting_for_token];
      try (rewrite ?Hwait; split; reflexivity).
    destruct Hnot. split; [exact Hwait|]. split; [exact Hdel|].
    exists d, ok. split; [exact Hans|]. split; [exact Hok | exact Htruthy].
Qed.

(** X21.  When a token is awaited, the first thing the handler does is to
    delete the message that holds the token, before the token is sent
    anywhere; if that deletion fails the handler stops there: no request
    is made and nothing is stored. *)
Theorem token_message_is_deleted_first (tg : telegram) (w : world) (now : Z)
    (upd : update) (st : chat_state) :
  waiting_for_token st = Some true →
  let r := handle_message tg w now upd st in
  ∃ rest,
    chat_log (fst r)
    = chat_log st
      ++ DeleteMessage (effective_chat upd) (message_id upd) :: rest
    ∧ (can_delete tg (effective_chat upd) (message_id upd) = false →
       rest = [] ∧ snd r = Failed TelegramError
       ∧ registry (fst r) = registry st).
Proof.
  intros Hwait. cbv zeta. unfold handle_message. rewrite Hwait.
  destruct (handle_token_input_cases tg w now upd st)
    as [[Hdel ->] | [Hdel [[e ->] | [(told & -> & _)
                                    | (d & ok & told & _ & _ & _ & -> & _)]]]];
    cbn [fst snd chat_log registry].
  - exists []. split; [reflexivity|]. auto.
  - eexists. split; [reflexivity|]. congruence.
  - rewrite <- !app_assoc. cbn [app].
    eexists. split; [reflexivity|]. congruence.
  - rewrite <- !app_assoc. cbn [app].
    eexists. split; [reflexivity|]. congruence.
Qed.

(** X22.  When a token is awaited, the session of the client that checks
    it is closed exactly when the handler completes: on completion the
    log of the call is the deletion of the token message, the opening of
    a session for the stripped token, further calls, and last the
    closing of that session; when the handler fails (the deletion fails,
    the answer is not a dictionary, or the reply cannot be sent) no
    session is closed, also when one was opened. *)
Theorem handler_closes_session_iff_done (tg : telegram) (w : world) (now : Z)
    (upd : update) (st : chat_state) :
  waiting_for_token st = Some true →
  let r := handle_message tg w now upd st in
  let token := Some (strip (message_text upd)) in
  ∃ added,
    chat_log (fst r) = chat_log st ++ added
    ∧ match snd r with
      | Done =>
          ∃ between,
            added = DeleteMessage (effective_chat upd) (message_id upd)
                    :: Remote (SessionOpen token)
                    :: between ++ [Remote (SessionClose token)]
      | Failed _ => ¬ In (Remote (SessionClose token)) added
      end.
Proof.
  intros Hwait. cbv zeta. unfold handle_message. rewrite Hwait.
  destruct (handle_token_input_cases tg w now upd st)
    as [[Hdel ->] | [Hdel [[e ->] | [(told & -> & ->)
                                    | (d & ok & told & _ & _ & _ & -> & ->)]]]];
    cbn [fst snd chat_log].
  - eexists. split; [reflexivity|]. intros [H|[]]. discriminate H.
  - eexists. split; [reflexivity|].
    intros [H|[H|[H|[]]]]; discriminate H.
  - rewrite <- !app_assoc. cbn [app].
    destruct (can_send tg (effective_chat upd) invalid_token_text).
    + eexists. split; [reflexivity|].
      exists [Remote (Request (Some (strip (message_text upd))) (u "auth.info")
                              (PDict ∅));
              SendText (effective_chat upd) invalid_token_text false].
      reflexivity.
    + eexists. split; [reflexivity|].
      intros [H|[H|[H|[H|[]]]]]; discriminate H.
  - rewrite <- !app_assoc. cbn [app].
    destruct (can_send tg (effective_chat upd) connected_text).
    + eexists. split; [reflexivity|].
      exists (Remote (Request (Some (strip (message_text upd))) (u "auth.info")
                              (PDict ∅))
              :: delete_recent (effective_chat upd) (message_id upd)
              ++ [SendText (effective_chat upd) connected_text true]).
      cbn [app]. rewrite <- !app_assoc. reflexivity.
    + eexists. split; [reflexivity|].
      intros [H|[H|[H|H]]]; try discriminate H.
      apply in_app_or in H as [H | [H | []]]; [|discriminate H].
      unfold delete_recent in H. apply in_map_iff in H as (i & H & _).
      discriminate H.
Qed.

(** X21 at a message that holds a token padded with blanks. *)
Lemma token_message_is_deleted_first_witness :
  waiting_for_token awaiting_token = Some true
  ∧ let r := handle_message obliging_telegram (world_with_page []) 5
               token_update awaiting_token in
    ∃ rest,
      chat_log (fst r)
      = chat_log awaiting_token
        ++ DeleteMessage (effective_chat token_update) (message_id token_update)
           :: rest
      ∧ (can_delete obliging_telegram (effective_chat token_update)
                    (message_id token_update) = false →
         rest = [] ∧ snd r = Failed TelegramError
         ∧ registry (fst r) = registry awaiting_token).
Proof.
  split; [reflexivity|].
  apply (token_message_is_deleted_first obliging_telegram (world_with_page []) 5
           token_update awaiting_token).
  reflexivity.
Defined.

(** X22 at the same message. *)
Lemma handler_closes_session_iff_done_witness :
  waiting_for_token awaiting_token = Some true
  ∧ let r := handle_message obliging_telegram (world_with_page []) 5
               token_update awaiting_token in
    let token := Some (strip (message_text token_update)) in
    ∃ added,
      chat_log (fst r) = chat_log awaiting_token ++ added
      ∧ match snd r with
        | Done =>
            ∃ between,
              added = DeleteMessage (effective_chat token_update)
                                    (message_id token_update)
                      :: Remote (SessionOpen token)
                      :: between ++ [Remote (SessionClose token)]
        | Failed _ => ¬ In (Remote (SessionClose token)) added
        end.
Proof.
  split; [reflexivity|].
  apply (handler_closes_session_iff_done obliging_telegram (world_with_page [])
           5 token_update awaiting_token).
  reflexivity.
Defined.

(** The token of that message is stored without its blanks, and the
    cursor of the user starts absent. *)
Lemma token_is_stored_stripped :
  let r := handle_message obliging_telegram (world_with_page []) 5
             token_update awaiting_token in
  snd r = Done
  ∧ registry (fst r) !! 7 = Some (mk_user_row (Some (u "secret")) true None 5)
  ∧ waiting_for_token (fst r) = Some false
  ∧ length (List.filter (fun e => match e with
                             | DeleteMessage _ _ => true
                             | _ => false
                             end) (chat_log (fst r))) = 21%nat.
Proof. cbv zeta. repeat split; vm_compute; reflexivity. Qed.

(** * An event that cannot be classified *)

Section Unclassifiable.

Variable lower : pystr -> pystr.
Variable repr : pyval -> pystr.
Variable w : world.

Lemma filter_comment_events_raises events bad x :
  In bad events →
  _is_comment_event lower bad = Raise x →
  ∃ x', filter_comment_events lower events = Raise x'.
Proof.
  induction events as [|e events IH]; intros Hin Hbad; [destruct Hin|].
  cbn [filter_comment_events].
  destruct (_is_comment_event lower e) as [keep|x0] eqn:He;
    [|exists x0; reflexivity].
  destruct Hin as [-> | Hin]; [congruence|].
  destruct (IH Hin Hbad) as [x' ->]. exists x'. reflexivity.
Qed.

(** X23.  The new events are classified before any notification is
    sent and after the cursor is written.  So when the cursor write
    succeeds (the newest new event has an id [v] that the database binds,
    storing it as [stored]) and one of the new events cannot be
    classified (its [name] is not a string), [_process_events] raises
    with the cursor already advanced to [stored] and without a single
    notification, also for the comment events of the page that could be
    classified. *)
Theorem unclassifiable_event_silences_page (usr : user) (api : YonoteAPI)
    (users : gmap Z user_row) (events : pyval) (items : list pyval)
    (newest : pyval) (older : list pyval) (v : pyval)
    (stored : option pystr) (bad : pyval) (x : exn) :
  py_iter events = Ok items →
  scan_new_events (user_last_event_id usr) items = Ok (newest :: older) →
  py_getitem newest (u "id") = Ok v →
  sqlite_text v = Ok stored →
  In bad (newest :: older) →
  _is_comment_event lower bad = Raise x →
  let o := _process_events lower repr w usr events api users in
  out_users o = update_last_event_id (user_id usr) stored users
  ∧ out_effects o = [SetLastEventId (user_id usr) stored]
  ∧ out_api o = api
  ∧ ∃ x', out_result o = Raise x'.
Proof.
  intros Hiter Hscan Hid Hbind Hin Hbad. cbv zeta. unfold _process_events.
  rewrite Hiter. cbn [mbind result_bind]. rewrite Hscan, Hid.
  cbn [mbind result_bind]. rewrite Hbind.
  destruct (filter_comment_events_raises _ _ _ Hin Hbad) as [x' ->].
  cbn [out_users out_effects out_api out_result].
  split; [reflexivity|]. split; [reflexivity|]. split; [reflexivity|].
  exists x'. reflexivity.
Qed.

End Unclassifiable.

(** X23 at a page whose newest event is a comment and whose second event
    has a null name. *)
Lemma unclassifiable_event_silences_page_witness :
  let newest := comment_event [(u "id", PStr (u "e2"))] in
  let bad := PDict (mk_event [(u "id", PStr (u "e1")); (u "name", PNone)]) in
  let o := _process_events str_lower repr_stub (world_with_page []) user7
             (PList [newest; bad]) (new_YonoteAPI (Some (u "token")))
             (db one_user) in
  out_users o = update_last_event_id (user_id user7) (Some (u "e2")) (db one_user)
  ∧ out_effects o = [SetLastEventId (user_id user7) (Some (u "e2"))]
  ∧ out_api o = new_YonoteAPI (Some (u "token"))
  ∧ ∃ x', out_result o = Raise x'.
Proof.
  cbv zeta.
  apply (unclassifiable_event_silences_page str_lower repr_stub
           (world_with_page []) user7 (new_YonoteAPI (Some (u "token")))
           (db one_user)
           (PList [comment_event [(u "id", PStr (u "e2"))];
                   PDict (mk_event [(u "id", PStr (u "e1")); (u "name", PNone)])])
           [comment_event [(u "id", PStr (u "e2"))];
            PDict (mk_event [(u "id", PStr (u "e1")); (u "name", PNone)])]
           (comment_event [(u "id", PStr (u "e2"))])
           [PDict (mk_event [(u "id", PStr (u "e1")); (u "name", PNone)])]
           (PStr (u "e2")) (Some (u "e2"))
           (PDict (mk_event [(u "id", PStr (u "e1")); (u "name", PNone)]))
           AttributeError).
  - reflexivity.
  - vm_compute; reflexivity.
  - vm_compute; reflexivity.
  - vm_compute; reflexivity.
  - right. left. reflexivity.
  - vm_compute; reflexivity.
Defined.
